(** * Astral-AI: provider-client authentication and registries

    A shallow embedding of
      - [astral_ai/providers/_base_client.py]    (BaseProviderClient),
      - [astral_ai/providers/_client_registry.py] (ProviderClientRegistry),
      - [astral_ai/providers/_mappings.py]       (AdapterRegistry),
      - [astral_ai/exceptions.py]                (ProviderNotSupportedError),
      - [astral_ai/_types/_request.py]           (AstralCompletionRequest),
    together with the properties of these functions.

    Python dictionaries whose iteration order matters (the strategy table,
    a configuration, a dumped request) are association lists in insertion
    order; the two process-wide registries and the class-level client cache,
    which are only looked up, written and deleted by key, are [gmap]s.
    Exceptions are values of the type [Exn]; a call that may raise returns a
    [result]. *)

From stdpp Require Import base option list sorting strings pretty gmap fin_maps.

Open Scope string_scope.
Open Scope list_scope.
Set Warnings "-register-all".

(** ** Python values shared by all components *)

(** A call either returns a value or raises an exception. *)
Inductive result (E A : Type) : Type :=
  | Returns (a : A)
  | Raises (e : E).
Arguments Returns {E A} a.
Arguments Raises {E A} e.

(** Exceptions raised by the modelled code.  [OtherException] stands for
    any exception raised by code the core calls but does not own: an
    authentication strategy, a vendor SDK. *)
Inductive Exn : Type :=
  | ValueError (message : string)
  | KeyError (key : string)
  | ProviderNotSupportedError (provider_name : string)
  | AstralUnknownAuthMethodError
      (message auth_method_name provider_name : string)
      (supported_methods : list string)
  | MultipleAstralAuthenticationErrors
      (message provider_name auth_method_name error_traceback : string)
      (errors : list (string * Exn))
  | OtherException (class_name message : string).

(** [exceptions.py], ProviderNotSupportedError.__init__: the message built
    from the provider name that the exception also stores. *)
Definition ProviderNotSupportedError_message (provider_name : string) : string :=
  "Provider '" +:+ provider_name +:+ "' is not supported.".

(** Python truthiness of an [Optional[str]]: [None] and the empty string
    are falsy. *)
Definition str_truthy (s : option string) : bool :=
  match s with
  | Some (String _ _) => true
  | _ => false
  end.

(** [d.get(k)] on a dictionary kept in insertion order. *)
Fixpoint dict_get {V : Type} (d : list (string * V)) (k : string) : option V :=
  match d with
  | [] => None
  | (k', v) :: d' => if decide (k' = k) then Some v else dict_get d' k
  end.

Definition dict_keys {V : Type} (d : list (string * V)) : list string := d.*1.

(** ** Configuration *)

(** The value stored under ["auth_method"]: only its [auth_method]
    attribute, the pinned strategy name, is read. *)
Record AuthMethodConfig : Type := {
  auth_method : string
}.

(** The provider-scoped section of a configuration ([self._config]):
    the optional pinned method, the optional [cache_client] flag, and the
    remaining credential entries. *)
Record ProviderConfig : Type := {
  cfg_auth_method : option AuthMethodConfig;
  cfg_cache_client : option bool;
  cfg_credentials : list (string * string)
}.

(** The empty section [{}]. *)
Definition empty_config : ProviderConfig :=
  {| cfg_auth_method := None; cfg_cache_client := None; cfg_credentials := [] |}.

(** A full configuration: provider name to provider section. *)
Definition FullConfig : Type := list (string * ProviderConfig).

(** ** What the core takes from the Python runtime and the vendor SDKs *)

(** The library functions and external collaborators the code calls. *)
Class Runtime : Type := {
  (** The native client handle of a vendor SDK; the core only tests its
      truthiness ([if client:]). *)
  Handle : Type;
  truthy : Handle -> bool;
  (** The snapshot returned by [get_env_vars()]. *)
  Env : Type;
  get_env_vars : Env;
  (** Python's builtin [hash] on [str]: fixed during one process run. *)
  hash : string -> Z;
  (** [json.dumps] of a dictionary key (a quoted, escaped string) and of
      the dumped value [v.model_dump()] of one configuration entry. *)
  json_str : string -> string;
  json_model_dump : ProviderConfig -> string;
  (** [repr] of a list of strings, as interpolated into an f-string, and
      the text returned by [traceback.format_exc()]. *)
  repr_list : list string -> string;
  format_exc : string;
  (** [read_config(cls._config_path)]: the content of [astral.yaml], or
      [None] when the file is missing or unreadable. *)
  read_config : option FullConfig
}.

(** ** CacheKeyDeriver: [ProviderClientRegistry._generate_registry_key] *)

(** Keys of a dictionary are compared as strings by [sort_keys=True]. *)
Definition key_le {V : Type} (a b : string * V) : Prop := String.le a.1 b.1.

Global Instance key_le_dec {V : Type} : RelDecision (@key_le V).
Proof. intros a b. unfold key_le. apply _. Defined.

Fixpoint join (sep : string) (l : list string) : string :=
  match l with
  | [] => EmptyString
  | [x] => x
  | x :: l' => x +:+ sep +:+ join sep l'
  end.

(** [json.dumps({k: v.model_dump() for k, v in config.items()},
    sort_keys=True)]: the entries are rendered, ordered by key and joined
    with the default separators.  The keys of a dictionary are distinct,
    so the order of the output is determined by the keys alone. *)
Definition json_dumps_sorted `{Runtime} (config : FullConfig) : string :=
  let dumped := (fun kv : string * ProviderConfig =>
                   (kv.1, json_model_dump kv.2)) <$> config in
  let items := merge_sort key_le dumped in
  "{" +:+ join ", " ((fun kv : string * string =>
                        json_str kv.1 +:+ ": " +:+ kv.2) <$> items) +:+ "}".

Definition _generate_registry_key `{Runtime}
    (provider_name : string) (config : option FullConfig)
    (client_key : option string) (async_client : bool) : string :=
  let base_key :=
    if str_truthy client_key then default EmptyString client_key
    else match config with
         | Some config =>
             let config_str := json_dumps_sorted config in
             let config_hash := hash config_str in
             provider_name +:+ "_" +:+ pretty config_hash
         | None => provider_name
         end in
  if async_client then base_key +:+ ".async" else base_key.

(** ** AuthResolutionEngine: [BaseProviderClient._get_or_authenticate_client] *)

(** The concrete provider-client classes of [_PROVIDER_CLIENT_MAP]. *)
Inductive ClientClass : Type :=
  | OpenAIProviderClient
  | AnthropicProviderClient
  | DeepSeekProviderClient.

Global Instance ClientClass_eq_dec : EqDecision ClientClass.
Proof. solve_decision. Defined.

Global Instance ClientClass_countable : Countable ClientClass.
Proof.
  refine (inj_countable'
            (fun c => match c with
                      | OpenAIProviderClient => 0
                      | AnthropicProviderClient => 1
                      | DeepSeekProviderClient => 2
                      end)
            (fun n => match n with
                      | 0 => OpenAIProviderClient
                      | 1 => AnthropicProviderClient
                      | _ => DeepSeekProviderClient
                      end) _).
  by intros [].
Defined.

(** A strategy is called as [strategy(self, self._config, env)]. *)
Definition AuthCallable `{Runtime} : Type :=
  ProviderConfig -> Env -> result Exn Handle.

(** The strategy table [_auth_strategies] of a class, in registration
    order. *)
Definition AuthStrategyTable `{Runtime} : Type := list (string * AuthCallable).

(** What one run of the resolution loop leaves behind: the value returned
    or the exception raised, the local list [errors], and the names of the
    strategies that were called, in call order. *)
Record AuthRun `{Runtime} : Type := {
  auth_result : result Exn Handle;
  auth_errors : list (string * Exn);
  auth_invoked : list string
}.

(** Lines 239-257: the candidate list, or the unknown-method error. *)
Definition methods_to_try `{Runtime}
    (_auth_strategies : AuthStrategyTable) (_model_provider : string)
    (_config : ProviderConfig) : result Exn (list (string * AuthCallable)) :=
  let supported_methods := dict_keys _auth_strategies in
  match cfg_auth_method _config with
  | Some auth_method_config =>
      let auth_method_name := auth_method auth_method_config in
      match dict_get _auth_strategies auth_method_name with
      | None =>
          Raises (AstralUnknownAuthMethodError
                    ("Unknown authentication method '" +:+ auth_method_name
                     +:+ "' for provider '" +:+ _model_provider
                     +:+ "'. Supported methods: "
                     +:+ repr_list supported_methods)
                    auth_method_name _model_provider supported_methods)
      | Some strategy => Returns [(auth_method_name, strategy)]
      end
  | None => Returns _auth_strategies
  end.

(** Lines 259-282: the loop over the candidates and the consolidated
    error after it.  [single] is [len(methods_to_try) == 1], computed on
    the whole candidate list. *)
Fixpoint try_methods `{Runtime}
    (_model_provider : string) (_config : ProviderConfig) (single : bool)
    (methods : list (string * AuthCallable))
    (errors : list (string * Exn)) (invoked : list string) : AuthRun :=
  match methods with
  | [] =>
      {| auth_result :=
           Raises (MultipleAstralAuthenticationErrors
                     EmptyString _model_provider "multiple_failed"
                     format_exc errors);
         auth_errors := errors;
         auth_invoked := invoked |}
  | (name, strategy) :: rest =>
      match strategy _config get_env_vars with
      | Returns client =>
          if truthy client
          then {| auth_result := Returns client;
                  auth_errors := errors;
                  auth_invoked := invoked ++ [name] |}
          else try_methods _model_provider _config single rest
                 errors (invoked ++ [name])
      | Raises e =>
          let errors := errors ++ [(name, e)] in
          if single
          then {| auth_result := Raises e;
                  auth_errors := errors;
                  auth_invoked := invoked ++ [name] |}
          else try_methods _model_provider _config single rest
                 errors (invoked ++ [name])
      end
  end.

(** The body of the method.  The decorator [auth_error_handler] around it
    lives in [astral_ai.errors.error_decorators]; it formats the message of
    the error that passes through it and is not part of this model. *)
Definition _get_or_authenticate_client `{Runtime}
    (_auth_strategies : AuthStrategyTable) (_model_provider : string)
    (_config : ProviderConfig) : AuthRun :=
  match methods_to_try _auth_strategies _model_provider _config with
  | Raises error =>
      {| auth_result := Raises error; auth_errors := []; auth_invoked := [] |}
  | Returns methods =>
      try_methods _model_provider _config
        (bool_decide (length methods = 1)) methods [] []
  end.

(** A strategy call that does not produce a usable handle: it raises, or
    it returns a falsy value. *)
Definition attempt_fails `{Runtime} (_config : ProviderConfig)
    (m : string * AuthCallable) : Prop :=
  match m.2 _config get_env_vars with
  | Returns client => truthy client = false
  | Raises _ => True
  end.

(** The [(name, error)] pairs appended to [errors] by the candidates of a
    list that raise. *)
Fixpoint raised_by `{Runtime} (_config : ProviderConfig)
    (methods : list (string * AuthCallable)) : list (string * Exn) :=
  match methods with
  | [] => []
  | (name, strategy) :: rest =>
      match strategy _config get_env_vars with
      | Returns _ => raised_by _config rest
      | Raises e => (name, e) :: raised_by _config rest
      end
  end.

(** ** ConfigResolver and [BaseProviderClient.__init__] *)

(** The adapter classes of [_PROVIDER_ADAPTER_MAP]. *)
Inductive AdapterClass : Type :=
  | OpenAICompletionAdapter
  | AnthropicCompletionAdapter.

(** What the class definitions contribute: the strategy table and the
    [_model_provider] attribute of every client class, and what calling an
    adapter class without arguments does ([None]: it returns normally,
    [Some e]: it raises [e]). *)
Class ProviderClasses `{Runtime} : Type := {
  _auth_strategies : ClientClass -> AuthStrategyTable;
  _model_provider : ClientClass -> string;
  adapter_init : AdapterClass -> option Exn
}.

(** A provider-client instance.  [oid] is the identity of the object:
    two references denote the same instance exactly when their [oid]s
    agree. *)
Record ProviderClient `{Runtime} : Type := {
  oid : nat;
  client_class : ClientClass;
  _full_config : FullConfig;
  _config : ProviderConfig;
  client : Handle
}.

Record Adapter : Type := {
  adapter_oid : nat;
  adapter_class : AdapterClass
}.

(** The process-wide mutable state: the registry map, the class-level
    [_client_cache] of [BaseProviderClient] (one dictionary shared by all
    subclasses, keyed by [self.__class__]), the adapter cache, the next
    free object identity, and the strategies called so far. *)
Record World `{Runtime} : Type := {
  _client_registry : gmap string ProviderClient;
  _client_cache : gmap ClientClass Handle;
  _adapter_cache : gmap string Adapter;
  next_oid : nat;
  auth_trace : list (ClientClass * string)
}.

Definition set_client_registry `{Runtime}
    (f : gmap string ProviderClient -> gmap string ProviderClient)
    (w : World) : World :=
  {| _client_registry := f (_client_registry w);
     _client_cache := _client_cache w;
     _adapter_cache := _adapter_cache w;
     next_oid := next_oid w;
     auth_trace := auth_trace w |}.

Definition set_client_cache `{Runtime}
    (f : gmap ClientClass Handle -> gmap ClientClass Handle)
    (w : World) : World :=
  {| _client_registry := _client_registry w;
     _client_cache := f (_client_cache w);
     _adapter_cache := _adapter_cache w;
     next_oid := next_oid w;
     auth_trace := auth_trace w |}.

Definition set_adapter_cache `{Runtime}
    (f : gmap string Adapter -> gmap string Adapter) (w : World) : World :=
  {| _client_registry := _client_registry w;
     _client_cache := _client_cache w;
     _adapter_cache := f (_adapter_cache w);
     next_oid := next_oid w;
     auth_trace := auth_trace w |}.

(** Allocation of a new object. *)
Definition alloc `{Runtime} (w : World) : World :=
  {| _client_registry := _client_registry w;
     _client_cache := _client_cache w;
     _adapter_cache := _adapter_cache w;
     next_oid := S (next_oid w);
     auth_trace := auth_trace w |}.

Definition log_auth `{Runtime} (cls : ClientClass) (names : list string)
    (w : World) : World :=
  {| _client_registry := _client_registry w;
     _client_cache := _client_cache w;
     _adapter_cache := _adapter_cache w;
     next_oid := next_oid w;
     auth_trace := auth_trace w ++ ((fun n => (cls, n)) <$> names) |}.

(** Truthiness of an optional dictionary: [None] and [{}] are falsy. *)
Definition dict_truthy {V : Type} (d : option (list (string * V))) : bool :=
  match d with
  | Some (_ :: _) => true
  | _ => false
  end.

Definition load_full_config `{Runtime} : option FullConfig := read_config.

(** [config or self.load_full_config() or {}]. *)
Definition resolve_full_config `{Runtime} (config : option FullConfig)
    : FullConfig :=
  if dict_truthy config then default [] config
  else if dict_truthy load_full_config then default [] load_full_config
  else [].

(** [self._full_config.get(self._model_provider, {})]. *)
Definition get_provider_config (_model_provider : string)
    (_full_config : FullConfig) : ProviderConfig :=
  default empty_config (dict_get _full_config _model_provider).

(** [self._config.get("cache_client", True)]. *)
Definition cache_client_flag (_config : ProviderConfig) : bool :=
  default true (cfg_cache_client _config).

(** The configuration section the initializer of class [cls] works with,
    and its authentication run. *)
Definition section_of `{ProviderClasses} (cls : ClientClass)
    (config : option FullConfig) : ProviderConfig :=
  get_provider_config (_model_provider cls) (resolve_full_config config).

Definition auth_run_of `{ProviderClasses} (cls : ClientClass)
    (config : option FullConfig) : AuthRun :=
  _get_or_authenticate_client (_auth_strategies cls) (_model_provider cls)
    (section_of cls config).

(** [BaseProviderClient.__init__] run on a new object [self] of class
    [cls]. *)
Definition BaseProviderClient__init__ `{ProviderClasses}
    (cls : ClientClass) (self : nat) (config : option FullConfig)
    (w : World) : result Exn ProviderClient * World :=
  let full_config := resolve_full_config config in
  let provider_config := get_provider_config (_model_provider cls) full_config in
  let cache_client := cache_client_flag provider_config in
  let cache_key := cls in
  let instance h :=
    {| oid := self; client_class := cls; _full_config := full_config;
       _config := provider_config; client := h |} in
  match (if cache_client then _client_cache w !! cache_key else None) with
  | Some cached => (Returns (instance cached), w)
  | None =>
      let run := _get_or_authenticate_client
                   (_auth_strategies cls) (_model_provider cls) provider_config in
      let w := log_auth cls (auth_invoked run) w in
      match auth_result run with
      | Raises e => (Raises e, w)
      | Returns h =>
          (Returns (instance h),
           if cache_client then set_client_cache (insert cache_key h) w else w)
      end
  end.

(** ** ClientRegistry: [ProviderClientRegistry] of [_client_registry.py] *)

Definition _PROVIDER_CLIENT_MAP (provider_name : string) : option ClientClass :=
  if decide (provider_name = "openai") then Some OpenAIProviderClient
  else if decide (provider_name = "anthropic") then Some AnthropicProviderClient
  else if decide (provider_name = "deepseek") then Some DeepSeekProviderClient
  else None.

(** The fields of [AstralClientParams] read by the registry. *)
Record AstralClientParams : Type := {
  new_client : bool;
  client_key : option string;
  client_config : option FullConfig
}.

(** Lines 122-138 of [get_client]: the key, or the [ValueError]. *)
Definition get_client_key `{Runtime} (provider_name : string)
    (astral_client : option AstralClientParams) (async_client : bool)
    : result Exn string :=
  match astral_client with
  | None =>
      Returns (_generate_registry_key provider_name None None async_client)
  | Some astral_client =>
      if new_client astral_client then
        if str_truthy (client_key astral_client) then
          Returns (_generate_registry_key provider_name None
                     (client_key astral_client) async_client)
        else
          Raises (ValueError
            "When new_client is True, you must provide a unique client_key.")
      else
        Returns (_generate_registry_key provider_name
                   (client_config astral_client)
                   (client_key astral_client) async_client)
  end.

(** The [TypeError] of a call that passes a keyword argument the
    initializer of the class does not take. *)
Definition unexpected_keyword (class_name keyword : string) : Exn :=
  OtherException "TypeError"
    (class_name +:+ ".__init__() got an unexpected keyword argument '"
     +:+ keyword +:+ "'").

(** Modelled from the spec: the classes [OpenAIProviderClient] and
    [AnthropicProviderClient] are not among the sources.  By the spec the
    registry constructs a client through the constructor of the provider
    client, which runs the resolution engine: their initializers take the
    configuration and the variant flag and run the base initializer on
    the configuration. *)
Definition init_with_variant `{ProviderClasses} (cls : ClientClass)
    (self : nat) (config : option FullConfig) (async_client : bool)
    (w : World) : result Exn ProviderClient * World :=
  BaseProviderClient__init__ cls self config w.

(** [client_class(config, async_client=async_client)]: a new object is
    allocated and its initializer is called with both arguments.
    [DeepSeekProviderClient.__init__(self, config)] takes no keyword
    [async_client], so for this class the call raises [TypeError] before
    the base initializer runs. *)
Definition instantiate `{ProviderClasses} (client_class : ClientClass)
    (config : option FullConfig) (async_client : bool) (w : World)
    : result Exn ProviderClient * World :=
  match client_class with
  | DeepSeekProviderClient =>
      (Raises (unexpected_keyword "DeepSeekProviderClient" "async_client"),
       alloc w)
  | _ =>
      init_with_variant client_class (next_oid w) config async_client
        (alloc w)
  end.

Definition get_client `{ProviderClasses} (provider_name : string)
    (astral_client : option AstralClientParams) (async_client : bool)
    (w : World) : result Exn ProviderClient * World :=
  match get_client_key provider_name astral_client async_client with
  | Raises e => (Raises e, w)
  | Returns key =>
      match _client_registry w !! key with
      | Some cached => (Returns cached, w)
      | None =>
          match _PROVIDER_CLIENT_MAP provider_name with
          | None => (Raises (ProviderNotSupportedError provider_name), w)
          | Some client_class =>
              match instantiate client_class
                      (astral_client ≫= client_config) async_client w with
              | (Raises e, w) => (Raises e, w)
              | (Returns new, w) =>
                  (Returns new, set_client_registry (insert key new) w)
              end
          end
      end
  end.

Definition register_client `{Runtime} (provider_name : string)
    (client : ProviderClient) (client_config : option FullConfig)
    (client_key : option string) (async_client : bool) (w : World) : World :=
  let key := _generate_registry_key provider_name client_config client_key
               async_client in
  set_client_registry (insert key client) w.

Definition unregister_client `{Runtime} (provider_name : string)
    (client_config : option FullConfig) (client_key : option string)
    (async_client : bool) (w : World) : World :=
  let key := _generate_registry_key provider_name client_config client_key
               async_client in
  match _client_registry w !! key with
  | Some _ => set_client_registry (delete key) w
  | None => w
  end.

Definition clear_cache `{Runtime} (w : World) : World :=
  set_client_registry (fun _ => ∅) w.

(** ** AdapterRegistry of [_mappings.py] *)

Definition _PROVIDER_ADAPTER_MAP (model_provider : string)
    : option AdapterClass :=
  if decide (model_provider = "openai") then Some OpenAICompletionAdapter
  else if decide (model_provider = "anthropic")
       then Some AnthropicCompletionAdapter
  else None.

(** [get_adapter]: the subscript [_PROVIDER_ADAPTER_MAP[model_provider]]
    and the adapter's constructor both run inside the [try]; a [KeyError]
    from either becomes [ProviderNotSupportedError]. *)
Definition get_adapter `{ProviderClasses} (model_provider : string)
    (w : World) : result Exn Adapter * World :=
  match _adapter_cache w !! model_provider with
  | Some adapter => (Returns adapter, w)
  | None =>
      match _PROVIDER_ADAPTER_MAP model_provider with
      | None => (Raises (ProviderNotSupportedError model_provider), w)
      | Some cls =>
          let adapter := {| adapter_oid := next_oid w; adapter_class := cls |} in
          match adapter_init cls with
          | Some (KeyError _) =>
              (Raises (ProviderNotSupportedError model_provider), alloc w)
          | Some e => (Raises e, alloc w)
          | None =>
              (Returns adapter,
               set_adapter_cache (insert model_provider adapter) (alloc w))
          end
      end
  end.

(** The state of a process that has not touched the registries yet. *)
Definition initial_world `{Runtime} : World :=
  {| _client_registry := ∅; _client_cache := ∅; _adapter_cache := ∅;
     next_oid := 0; auth_trace := [] |}.

(** Every registered instance is an object that has been allocated. *)
Definition registry_allocated `{Runtime} (w : World) : Prop :=
  forall key c, _client_registry w !! key = Some c -> oid c < next_oid w.

(** ** [AstralCompletionRequest.to_provider_dict] *)

(** The fields of [AstralCompletionRequest], those inherited from
    [BaseRequest] first, in declaration order. *)
Inductive Field : Type :=
  | f_model | f_astral_params | f_messages | f_stream
  | f_frequency_penalty | f_logit_bias | f_logprobs
  | f_max_completion_tokens | f_max_tokens | f_metadata | f_modalities
  | f_n | f_parallel_tool_calls | f_prediction | f_presence_penalty
  | f_reasoning_effort | f_response_format | f_seed | f_service_tier
  | f_stop | f_store | f_stream_options | f_temperature | f_tool_choice
  | f_tools | f_top_logprobs | f_top_p | f_user | f_timeout.

Global Instance Field_eq_dec : EqDecision Field.
Proof. solve_decision. Defined.

Definition all_fields : list Field :=
  [ f_model; f_astral_params; f_messages; f_stream;
    f_frequency_penalty; f_logit_bias; f_logprobs;
    f_max_completion_tokens; f_max_tokens; f_metadata; f_modalities;
    f_n; f_parallel_tool_calls; f_prediction; f_presence_penalty;
    f_reasoning_effort; f_response_format; f_seed; f_service_tier;
    f_stop; f_store; f_stream_options; f_temperature; f_tool_choice;
    f_tools; f_top_logprobs; f_top_p; f_user; f_timeout ].

Definition field_name (f : Field) : string :=
  match f with
  | f_model => "model" | f_astral_params => "astral_params"
  | f_messages => "messages" | f_stream => "stream"
  | f_frequency_penalty => "frequency_penalty"
  | f_logit_bias => "logit_bias" | f_logprobs => "logprobs"
  | f_max_completion_tokens => "max_completion_tokens"
  | f_max_tokens => "max_tokens" | f_metadata => "metadata"
  | f_modalities => "modalities" | f_n => "n"
  | f_parallel_tool_calls => "parallel_tool_calls"
  | f_prediction => "prediction"
  | f_presence_penalty => "presence_penalty"
  | f_reasoning_effort => "reasoning_effort"
  | f_response_format => "response_format" | f_seed => "seed"
  | f_service_tier => "service_tier" | f_stop => "stop"
  | f_store => "store" | f_stream_options => "stream_options"
  | f_temperature => "temperature" | f_tool_choice => "tool_choice"
  | f_tools => "tools" | f_top_logprobs => "top_logprobs"
  | f_top_p => "top_p" | f_user => "user" | f_timeout => "timeout"
  end.

(** The value held by a field: the sentinel [NOT_GIVEN], [None], or any
    other Python value. *)
Inductive FieldValue (V : Type) : Type :=
  | NOT_GIVEN
  | PyNone
  | Value (v : V).
Arguments NOT_GIVEN {V}.
Arguments PyNone {V}.
Arguments Value {V} v.

(** [value is not NOT_GIVEN]. *)
Definition is_not_NOT_GIVEN {V : Type} (value : FieldValue V) : bool :=
  match value with
  | NOT_GIVEN => false
  | _ => true
  end.

(** A request object: the value of every field (the default where the
    caller passed nothing) and the set [model_fields_set] of the fields
    the caller passed. *)
Record AstralCompletionRequest (V : Type) : Type := {
  field_value : Field -> FieldValue V;
  fields_set : Field -> bool
}.
Arguments field_value {V} _ _.
Arguments fields_set {V} _ _.

Section ToProviderDict.
Context {V : Type}.
(** What pydantic's [model_dump] makes of a field value other than the
    sentinel and [None] (nested models become dictionaries, plain data
    is kept). *)
Variable serialize : V -> V.

Definition dump_value (value : FieldValue V) : FieldValue V :=
  match value with
  | NOT_GIVEN => NOT_GIVEN
  | PyNone => PyNone
  | Value v => Value (serialize v)
  end.

(** [self.model_dump(exclude_unset=True)]. *)
Definition model_dump_exclude_unset (self : AstralCompletionRequest V)
    : list (string * FieldValue V) :=
  (fun f => (field_name f, dump_value (field_value self f)))
    <$> filter (fun f => fields_set self f) all_fields.

Definition to_provider_dict (self : AstralCompletionRequest V)
    : list (string * FieldValue V) :=
  let raw := model_dump_exclude_unset self in
  filter (fun kv : string * FieldValue V => is_not_NOT_GIVEN kv.2) raw.
End ToProviderDict.

(** ** Concrete inputs used in the examples *)

Module Examples.

Definition dquote : string := String (Ascii.ascii_of_nat 34) EmptyString.

(** Handles are [None] or an SDK client object; the environment is a
    list of variables. *)
Definition runtime : Runtime :=
  {| Handle := option nat;
     truthy := fun h => bool_decide (is_Some h);
     Env := list (string * string);
     get_env_vars := [("OPENAI_API_KEY", "sk-test")];
     hash := fun s => Z.of_nat (String.length s);
     json_str := fun s => dquote +:+ s +:+ dquote;
     json_model_dump := fun _ => "{}";
     repr_list := fun l => "[" +:+ join ", " l +:+ "]";
     format_exc := "NoneType: None";
     read_config := None |}.

Definition succeeds (h : nat) : @AuthCallable runtime :=
  fun _ _ => Returns (Some h).
Definition returns_None : @AuthCallable runtime :=
  fun _ _ => Returns None.
Definition fails (e : Exn) : @AuthCallable runtime :=
  fun _ _ => Raises e.

Definition E1 : Exn := OtherException "AstralAuthMethodFailureError" "API key is required".
Definition E2 : Exn := OtherException "RuntimeError" "token expired".

Definition classes (table : @AuthStrategyTable runtime)
    : @ProviderClasses runtime :=
  {| _auth_strategies := fun _ => table;
     _model_provider := fun cls =>
       match cls with
       | OpenAIProviderClient => "openai"
       | AnthropicProviderClient => "anthropic"
       | DeepSeekProviderClient => "deepseek"
       end;
     adapter_init := fun _ => None |}.

Definition pinned (name : string) : ProviderConfig :=
  {| cfg_auth_method := Some {| auth_method := name |};
     cfg_cache_client := None; cfg_credentials := [] |}.

Definition no_cache : ProviderConfig :=
  {| cfg_auth_method := None; cfg_cache_client := Some false;
     cfg_credentials := [] |}.

Definition no_cache_params : AstralClientParams :=
  {| new_client := false; client_key := Some "tenant-a";
     client_config := Some [("openai", no_cache)] |}.


Definition fallback_table : @AuthStrategyTable runtime :=
  [("oauth", fails E1); ("api_key", succeeds 7); ("sso", fails E2)].

Definition openai_classes : @ProviderClasses runtime :=
  classes [("api_key", succeeds 7)].

(** The default OpenAI client, as registered by a first [get_client]
    call of a fresh process. *)
Definition first_call : result Exn (@ProviderClient runtime) * @World runtime :=
  @get_client runtime openai_classes "openai" None false
    (@initial_world runtime).

Definition first_client : @ProviderClient runtime :=
  @Build_ProviderClient runtime 0 OpenAIProviderClient [] empty_config
    (Some 7).

(** A first call with a configuration that sets [cache_client] to
    false, and the key it derives. *)
Definition no_cache_call : result Exn (@ProviderClient runtime) * @World runtime :=
  @get_client runtime openai_classes "openai" (Some no_cache_params) false
    (@initial_world runtime).

Definition no_cache_key : string :=
  @_generate_registry_key runtime "openai"
    (client_config no_cache_params) (client_key no_cache_params) false.

End Examples.

(** ** Introspection of [ProviderClientRegistry] *)

(** [get_all_clients]: a copy of the registry map. *)
Definition get_all_clients `{Runtime} (w : World)
    : gmap string ProviderClient :=
  _client_registry w.

(** [get_client_count]: [len(cls._client_registry)]. *)
Definition get_client_count `{Runtime} (w : World) : nat :=
  size (_client_registry w).

(** [get_client_by_name]: the subscript [cls._client_registry[name]]
    raises [KeyError] for a name that is not a key. *)
Definition get_client_by_name `{Runtime} (name : string) (w : World)
    : result Exn ProviderClient :=
  match _client_registry w !! name with
  | Some c => Returns c
  | None => Raises (KeyError name)
  end.

(** ** The administration operations of [AdapterRegistry] *)

Module AdapterRegistry.

Definition register_adapter `{Runtime} (model_provider : string)
    (adapter : Adapter) (w : World) : World :=
  set_adapter_cache (insert model_provider adapter) w.

Definition unregister_adapter `{Runtime} (model_provider : string)
    (w : World) : World :=
  match _adapter_cache w !! model_provider with
  | Some _ => set_adapter_cache (delete model_provider) w
  | None => w
  end.

Definition clear_cache `{Runtime} (w : World) : World :=
  set_adapter_cache (fun _ => ∅) w.

Definition get_all_adapters `{Runtime} (w : World) : gmap string Adapter :=
  _adapter_cache w.

Definition get_adapter_count `{Runtime} (w : World) : nat :=
  size (_adapter_cache w).

End AdapterRegistry.

(** ** The DeepSeek client of [providers/deepseek/_client.py] *)

Module DeepSeek.

(** The exceptions raised by the credential check, with the arguments
    they are built from, and the [KeyError] of a dictionary subscript. *)
Inductive AuthError : Type :=
  | AstralAuthMethodFailureError (message : string)
  | AstralMissingCredentialsError
      (message auth_method_name provider_name : string)
      (required_credentials missing_credentials : list string)
  | KeyError (key : string).

(** The handle built by [OpenAI(api_key=.., base_url=..)]. *)
Record OpenAI : Type := {
  api_key : string;
  base_url : string
}.

Definition _model_provider : string := "deepseek".

(** [a or b] on two optional strings. *)
Definition or_else (a b : option string) : option string :=
  if str_truthy a then a else b.

(** [_validate_credentials]: [config] maps a name to a dictionary of
    strings, [env] is the environment.  The result is the dictionary
    [credentials]. *)
Definition _validate_credentials (auth_method_name : string)
    (config : list (string * list (string * string)))
    (env : list (string * string))
    : result AuthError (list (string * string)) :=
  if decide (auth_method_name = "api_key_with_base_url") then
    let api_key :=
      or_else (dict_get (default [] (dict_get config _model_provider))
                 auth_method_name)
              (dict_get env "DEEPSEEK_API_KEY") in
    if str_truthy api_key
    then Returns [("api_key", default EmptyString api_key)]
    else Raises (AstralAuthMethodFailureError "API key is required")
  else
    Raises (AstralMissingCredentialsError
              ("Invalid authentication method: " +:+ auth_method_name)
              auth_method_name _model_provider
              ["api_key"] [auth_method_name]).

(** The body of [auth_via_api_key_with_base_url]; [DEEPSEEK_BASE_URL] is
    the constant of [._constants]. *)
Definition auth_via_api_key_with_base_url (DEEPSEEK_BASE_URL : string)
    (config : list (string * list (string * string)))
    (env : list (string * string)) : result AuthError OpenAI :=
  match _validate_credentials "api_key_with_base_url" config env with
  | Raises e => Raises e
  | Returns credentials =>
      match dict_get credentials "api_key" with
      | Some key => Returns {| api_key := key; base_url := DEEPSEEK_BASE_URL |}
      | None => Raises (KeyError "api_key")
      end
  end.

End DeepSeek.

(** ** Further concrete inputs *)

Module MoreExamples.
Import Examples.

Definition custom_adapter : Adapter :=
  {| adapter_oid := 41; adapter_class := OpenAICompletionAdapter |}.

Definition tenant_params : AstralClientParams :=
  {| new_client := true; client_key := Some "tenant-a";
     client_config := None |}.

Definition keyless_params : AstralClientParams :=
  {| new_client := true; client_key := Some EmptyString;
     client_config := None |}.

(** Classes whose OpenAI adapter constructor raises. *)
Definition failing_adapter_classes (e : Exn) : @ProviderClasses runtime :=
  {| _auth_strategies := fun _ => [("api_key", succeeds 7)];
     _model_provider := fun _ => "openai";
     adapter_init := fun _ => Some e |}.

Definition failing_classes : @ProviderClasses runtime :=
  classes [("api_key", fails E1)].

(** Three strategies, none of which produces a handle. *)
Definition failing_table : @AuthStrategyTable runtime :=
  [("oauth", fails E1); ("api_key", returns_None); ("sso", fails E2)].

(** The state after the initializer of the OpenAI client has run once in
    a fresh process. *)
Definition first_init : result Exn (@ProviderClient runtime) * @World runtime :=
  @BaseProviderClient__init__ runtime openai_classes OpenAIProviderClient
    0 None (@initial_world runtime).

(** A first call with an explicit key, and a first call for classes whose
    only strategy raises. *)
Definition tenant_call : result Exn (@ProviderClient runtime) * @World runtime :=
  @get_client runtime openai_classes "openai" (Some tenant_params) false
    (@initial_world runtime).

Definition failing_call : result Exn (@ProviderClient runtime) * @World runtime :=
  @get_client runtime failing_classes "openai" None false
    (@initial_world runtime).

Definition first_adapter_call : result Exn Adapter * @World runtime :=
  @get_adapter runtime openai_classes "openai" (@initial_world runtime).

Definition deepseek_config : list (string * list (string * string)) :=
  [("deepseek", [("api_key_with_base_url", "sk-config")])].

Definition deepseek_env : list (string * string) :=
  [("DEEPSEEK_API_KEY", "sk-env")].

End MoreExamples.

(** * Properties *)

(** ** Dictionaries *)

Lemma dict_get_None {V : Type} (d : list (string * V)) (k : string) :
  dict_get d k = None <-> k ∉ dict_keys d.
Proof.
  unfold dict_keys. induction d as [|[k' v] d IH]; simpl.
  - split; [intros _; apply not_elem_of_nil | done].
  - rewrite not_elem_of_cons. case_decide as Hk; subst.
    + split; [done | intros [? _]; done].
    + rewrite IH. split; [intros ?; split; [done|done] | intros [_ ?]; done].
Qed.

Lemma dict_get_Some_elem {V : Type} (d : list (string * V)) (k : string) (v : V) :
  dict_get d k = Some v -> (k, v) ∈ d.
Proof.
  induction d as [|[k' v'] d IH]; simpl; [done|].
  case_decide as Hk; subst.
  - intros [= ->]. apply list_elem_of_here.
  - intros ?. apply list_elem_of_further. auto.
Qed.

(** ** The authentication loop *)

Section AuthResolutionEngine.
Context `{rt : Runtime}.
Implicit Types (tbl methods pre post : list (string * AuthCallable)).
Implicit Types (cfg : ProviderConfig) (provider name : string).

(** With more than one candidate, a prefix of failing candidates is
    walked through: each is called, the ones that raise are recorded. *)
Lemma try_methods_skip provider cfg pre rest errors invoked :
  Forall (attempt_fails cfg) pre ->
  try_methods provider cfg false (pre ++ rest) errors invoked
  = try_methods provider cfg false rest
      (errors ++ raised_by cfg pre) (invoked ++ pre.*1).
Proof.
  intros Hpre. revert errors invoked.
  induction Hpre as [|[n s] pre Hx _ IH]; intros errors invoked; simpl.
  - by rewrite !app_nil_r.
  - unfold attempt_fails in Hx. simpl in Hx.
    destruct (s cfg get_env_vars) as [h|e].
    + rewrite Hx, IH. by rewrite <- (assoc_L (++) invoked).
    + rewrite IH. by rewrite <- !(assoc_L (++)).
Qed.

Lemma single_flag_false pre (m : string * AuthCallable) post :
  pre <> [] -> bool_decide (length (pre ++ m :: post) = 1) = false.
Proof.
  intros Hpre. apply bool_decide_eq_false.
  rewrite length_app. simpl. destruct pre; [done | simpl; lia].
Qed.

(** C1: when the candidate list has exactly one entry and that strategy
    raises [e], the method raises [e] itself: the exception is neither
    wrapped nor put into the consolidated error. *)
Theorem single_candidate_failure_reraised tbl provider cfg name
    (strategy : AuthCallable) (e : Exn) :
  methods_to_try tbl provider cfg = Returns [(name, strategy)] ->
  strategy cfg get_env_vars = Raises e ->
  auth_result (_get_or_authenticate_client tbl provider cfg) = Raises e
  /\ auth_invoked (_get_or_authenticate_client tbl provider cfg) = [name].
Proof.
  intros Hm He. unfold _get_or_authenticate_client. rewrite Hm.
  simpl. by rewrite He.
Qed.

(** The candidate list of a configuration that pins a registered
    method is that method alone. *)
Lemma pinned_candidates tbl provider cfg amc (strategy : AuthCallable) :
  cfg_auth_method cfg = Some amc ->
  dict_get tbl (auth_method amc) = Some strategy ->
  methods_to_try tbl provider cfg = Returns [(auth_method amc, strategy)].
Proof. intros Hc Hg. unfold methods_to_try. by rewrite Hc, Hg. Qed.

(** C6: without a pinned method the strategies are called in
    registration order; the first one that returns a truthy handle ends
    the loop with that handle, none of the later ones is called, and the
    earlier failures are only recorded in [errors]. *)
Theorem fallback_short_circuit tbl provider cfg pre name
    (strategy : AuthCallable) post (h : Handle) :
  cfg_auth_method cfg = None ->
  tbl = pre ++ (name, strategy) :: post ->
  Forall (attempt_fails cfg) pre ->
  strategy cfg get_env_vars = Returns h ->
  truthy h = true ->
  auth_result (_get_or_authenticate_client tbl provider cfg) = Returns h
  /\ auth_invoked (_get_or_authenticate_client tbl provider cfg)
     = pre.*1 ++ [name]
  /\ auth_errors (_get_or_authenticate_client tbl provider cfg)
     = raised_by cfg pre.
Proof.
  intros Hc -> Hpre Hs Ht.
  unfold _get_or_authenticate_client, methods_to_try. rewrite Hc.
  destruct pre as [|m pre].
  - simpl. by rewrite Hs, Ht.
  - rewrite single_flag_false by done.
    rewrite try_methods_skip by done. simpl.
    by rewrite Hs, Ht.
Qed.

(** C7: a pinned method name that is not a key of the strategy table
    makes the method raise the unknown-method error, which carries the
    name, the provider and the supported names, before any strategy is
    called. *)
Theorem unknown_pinned_method tbl provider cfg amc :
  cfg_auth_method cfg = Some amc ->
  auth_method amc ∉ dict_keys tbl ->
  auth_result (_get_or_authenticate_client tbl provider cfg)
  = Raises (AstralUnknownAuthMethodError
              ("Unknown authentication method '" +:+ auth_method amc
               +:+ "' for provider '" +:+ provider
               +:+ "'. Supported methods: " +:+ repr_list (dict_keys tbl))
              (auth_method amc) provider (dict_keys tbl))
  /\ auth_invoked (_get_or_authenticate_client tbl provider cfg) = []
  /\ auth_errors (_get_or_authenticate_client tbl provider cfg) = [].
Proof.
  intros Hc Hn. apply dict_get_None in Hn.
  unfold _get_or_authenticate_client, methods_to_try.
  by rewrite Hc, Hn.
Qed.

(** When two or more candidates are tried and every one of them
    raises, the consolidated error carries all [(name, error)] pairs in
    call order and the provider name. *)
Lemma all_raise_aggregated tbl provider cfg :
  cfg_auth_method cfg = None ->
  1 < length tbl ->
  Forall (fun m : string * AuthCallable =>
            exists e, m.2 cfg get_env_vars = Raises e) tbl ->
  auth_result (_get_or_authenticate_client tbl provider cfg)
  = Raises (MultipleAstralAuthenticationErrors EmptyString provider
              "multiple_failed" format_exc (raised_by cfg tbl))
  /\ (raised_by cfg tbl).*1 = tbl.*1.
Proof.
  intros Hc Hlen Hall.
  unfold _get_or_authenticate_client, methods_to_try. rewrite Hc.
  rewrite bool_decide_eq_false_2 by lia.
  rewrite <- (app_nil_r tbl) at 1.
  rewrite try_methods_skip.
  - simpl. split; [done|]. clear Hlen.
    induction Hall as [|[n s] l [e He] _ IH]; simpl in *; [done|].
    rewrite He. rewrite !fmap_cons. by f_equal.
  - eapply Forall_impl; [exact Hall|].
    intros [n s] [e He]. unfold attempt_fails. simpl in *. by rewrite He.
Qed.

End AuthResolutionEngine.

(** C2, the code with fewer than two attempts: the consolidated error is also
    raised after a single strategy was tried, when that strategy returns a
    falsy handle instead of raising, and after no strategy was tried at
    all, when the strategy table is empty; in both runs it carries an
    empty list of failures. *)
Theorem aggregated_error_without_multiple_attempts :
  let run1 := @_get_or_authenticate_client Examples.runtime
                [("api_key", Examples.returns_None)] "openai" empty_config in
  let run0 := @_get_or_authenticate_client Examples.runtime
                [] "openai" empty_config in
  auth_result run1
  = Raises (MultipleAstralAuthenticationErrors EmptyString "openai"
              "multiple_failed" "NoneType: None" [])
  /\ auth_invoked run1 = ["api_key"]
  /\ auth_result run0
     = Raises (MultipleAstralAuthenticationErrors EmptyString "openai"
                 "multiple_failed" "NoneType: None" [])
  /\ auth_invoked run0 = [].
Proof. repeat split; reflexivity. Qed.

(** ** Cache keys *)

Lemma key_le_trans {V : Type} : Transitive (@key_le V).
Proof. intros a b c Hab Hbc. unfold key_le in *. by etrans. Qed.

Lemma key_le_total {V : Type} : Total (@key_le V).
Proof. intros a b. unfold key_le. apply total, _. Qed.

(** Sorting by key forgets the insertion order of a dictionary. *)
Lemma sorted_items_unique {V : Type} (l1 l2 : list (string * V)) :
  NoDup l1.*1 -> l1 ≡ₚ l2 ->
  merge_sort key_le l1 = merge_sort key_le l2.
Proof.
  intros Hnd Hperm.
  pose proof (@key_le_trans V) as Htrans.
  pose proof (@key_le_total V) as Htotal.
  apply (Sorted_unique_strong key_le).
  - intros [k1 v1] [k2 v2] Hin1 Hin2 H12 H21.
    unfold key_le in *; simpl in *.
    assert (k1 = k2) as -> by (by apply (anti_symm String.le)).
    rewrite merge_sort_Permutation in Hin1.
    rewrite merge_sort_Permutation, <- Hperm in Hin2.
    f_equal.
    destruct (list_elem_of_lookup_1 _ _ Hin1) as [i Hi].
    destruct (list_elem_of_lookup_1 _ _ Hin2) as [j Hj].
    assert (i = j) as ->.
    { eapply NoDup_lookup; [exact Hnd| |];
        rewrite list_lookup_fmap; [by rewrite Hi | by rewrite Hj]. }
    congruence.
  - by apply Sorted_merge_sort.
  - by apply Sorted_merge_sort.
  - by rewrite !merge_sort_Permutation.
Qed.

Section CacheKeyDeriver.
Context `{rt : Runtime}.

Lemma json_dumps_sorted_perm (c1 c2 : FullConfig) :
  NoDup c1.*1 -> c1 ≡ₚ c2 -> json_dumps_sorted c1 = json_dumps_sorted c2.
Proof.
  intros Hnd Hperm. unfold json_dumps_sorted.
  do 4 f_equal.
  apply sorted_items_unique.
  - by rewrite <- list_fmap_compose.
  - by apply fmap_Permutation.
Qed.

(** C5, as amended: a non-empty [client_key] is the base key verbatim;
    when [client_key] is [None] or the empty string, a supplied
    configuration gives the provider name, an underscore and the hash of
    the serialization with sorted keys, which is the same for two
    configurations that are equal as mappings, and no configuration gives
    the bare provider name; the variant flag appends [.async] to the base
    key and nothing is appended without it. *)
Theorem generate_registry_key_spec (provider_name key : string)
    (client_key : option string) (config1 config2 : FullConfig) :
  key <> EmptyString ->
  str_truthy client_key = false ->
  NoDup config1.*1 ->
  config1 ≡ₚ config2 ->
  (forall config,
     _generate_registry_key provider_name config (Some key) false = key)
  /\ _generate_registry_key provider_name (Some config1) client_key false
     = provider_name +:+ "_" +:+ pretty (hash (json_dumps_sorted config1))
  /\ _generate_registry_key provider_name (Some config1) client_key false
     = _generate_registry_key provider_name (Some config2) client_key false
  /\ _generate_registry_key provider_name None client_key false
     = provider_name
  /\ (forall config ck,
        _generate_registry_key provider_name config ck true
        = _generate_registry_key provider_name config ck false +:+ ".async").
Proof.
  intros Hkey Hck Hnd Hperm. unfold _generate_registry_key.
  rewrite Hck. repeat split.
  - intros config. destruct key; [done | reflexivity].
  - by rewrite (json_dumps_sorted_perm config1 config2).
Qed.

End CacheKeyDeriver.

(** C5, witness of the amended statement. *)
Lemma generate_registry_key_spec_witness :
  let c1 := [("openai", Examples.no_cache); ("anthropic", empty_config)] in
  let c2 := [("anthropic", empty_config); ("openai", Examples.no_cache)] in
  @_generate_registry_key Examples.runtime "openai" None (Some "tenant-a") false
  = "tenant-a"
  /\ @_generate_registry_key Examples.runtime "openai" (Some c1)
       (Some EmptyString) false
     = @_generate_registry_key Examples.runtime "openai" (Some c2)
         (Some EmptyString) false.
Proof.
  intros c1 c2.
  destruct (@generate_registry_key_spec Examples.runtime "openai" "tenant-a"
              (Some EmptyString) c1 c2) as (H1 & _ & H3 & _).
  - discriminate.
  - reflexivity.
  - apply (bool_decide_unpack _). vm_compute. exact I.
  - apply Permutation_swap.
  - split; [apply (H1 None) | exact H3].
Defined.

(** C5, counterexample: an explicit but empty [client_key] is not the
    base key; the key falls back to the provider name. *)
Lemma empty_client_key_not_verbatim :
  @_generate_registry_key Examples.runtime "openai" None
    (Some EmptyString) false = "openai"
  /\ @_generate_registry_key Examples.runtime "openai" None
       (Some EmptyString) false <> EmptyString.
Proof. split; [reflexivity | discriminate]. Qed.

(** ** The base initializer and the registries *)

Section Registries.
Context `{pc : ProviderClasses}.
Implicit Types (w : World) (cls : ClientClass) (c : ProviderClient).
Implicit Types (config : option FullConfig).
Implicit Types (astral_client : option AstralClientParams).

(** C10: the class-level cache is keyed by the class alone.  When
    [cache_client] is enabled and the cache holds a handle for the
    class, the initializer takes that handle whatever configuration it
    is given, calls no strategy and leaves the state as it was. *)
Theorem class_cache_reused cls (self : nat) config w (h : Handle) :
  cache_client_flag (section_of cls config) = true ->
  _client_cache w !! cls = Some h ->
  BaseProviderClient__init__ cls self config w
  = (Returns {| oid := self; client_class := cls;
                _full_config := resolve_full_config config;
                _config := section_of cls config;
                client := h |}, w).
Proof.
  intros Hflag Hcache. unfold BaseProviderClient__init__.
  fold (section_of cls config). by rewrite Hflag, Hcache.
Qed.

(** With [cache_client] disabled the initializer always authenticates
    and never touches the class-level cache. *)
Lemma init_without_cache cls (self : nat) config w :
  cache_client_flag (section_of cls config) = false ->
  BaseProviderClient__init__ cls self config w
  = (match auth_result (auth_run_of cls config) with
     | Raises e => Raises e
     | Returns h =>
         Returns {| oid := self; client_class := cls;
                    _full_config := resolve_full_config config;
                    _config := section_of cls config;
                    client := h |}
     end,
     log_auth cls (auth_invoked (auth_run_of cls config)) w).
Proof.
  intros Hflag. unfold BaseProviderClient__init__.
  fold (section_of cls config). rewrite Hflag.
  fold (auth_run_of cls config).
  by destruct (auth_result (auth_run_of cls config)).
Qed.

(** What a constructor call does to the state, whatever its outcome:
    one object is allocated, the registry map is not touched, and a
    returned instance is the new object. *)
Lemma instantiate_effect cls config (async_client : bool) w :
  _client_registry (instantiate cls config async_client w).2
  = _client_registry w
  /\ next_oid (instantiate cls config async_client w).2 = S (next_oid w)
  /\ forall c, (instantiate cls config async_client w).1 = Returns c ->
               oid c = next_oid w.
Proof.
  assert (forall self w0,
            _client_registry (BaseProviderClient__init__ cls self config w0).2
            = _client_registry w0
            /\ next_oid (BaseProviderClient__init__ cls self config w0).2
               = next_oid w0
            /\ forall c,
                 (BaseProviderClient__init__ cls self config w0).1 = Returns c
                 -> oid c = self) as Hinit.
  { intros self w0. unfold BaseProviderClient__init__.
    destruct (if cache_client_flag _ then _ else _) as [h|]; simpl.
    - split; [done|]. split; [done|]. by intros c [= <-].
    - destruct (auth_result _) as [h|e]; simpl.
      + destruct (cache_client_flag _); simpl;
          (split; [done|]; split; [done|]; by intros c [= <-]).
      + split; [done|]. split; [done|]. by intros c [= ]. }
  unfold instantiate, init_with_variant.
  destruct cls; try apply (Hinit (next_oid w) (alloc w)).
  simpl. split; [done|]. split; [done|]. by intros c [= ].
Qed.

Lemma get_client_hit provider_name astral_client (async_client : bool)
    (key : string) w c :
  get_client_key provider_name astral_client async_client = Returns key ->
  _client_registry w !! key = Some c ->
  get_client provider_name astral_client async_client w = (Returns c, w).
Proof. intros Hk Hc. unfold get_client. by rewrite Hk, Hc. Qed.

Lemma get_client_miss provider_name astral_client (async_client : bool)
    (key : string) cls w :
  get_client_key provider_name astral_client async_client = Returns key ->
  _client_registry w !! key = None ->
  _PROVIDER_CLIENT_MAP provider_name = Some cls ->
  get_client provider_name astral_client async_client w
  = match instantiate cls (astral_client ≫= client_config) async_client w with
    | (Raises e, w') => (Raises e, w')
    | (Returns new, w') =>
        (Returns new, set_client_registry (insert key new) w')
    end.
Proof. intros Hk Hc Hm. unfold get_client. by rewrite Hk, Hc, Hm. Qed.

(** A call that returns a client leaves it registered under the derived
    key, in a state where every registered instance is allocated. *)
Lemma get_client_returns provider_name astral_client (async_client : bool)
    w c w1 :
  registry_allocated w ->
  get_client provider_name astral_client async_client w = (Returns c, w1) ->
  exists key,
    get_client_key provider_name astral_client async_client = Returns key
    /\ _client_registry w1 !! key = Some c
    /\ registry_allocated w1.
Proof.
  intros Hwf. unfold get_client.
  destruct (get_client_key _ _ _) as [key|e] eqn:Hk; [|by intros [= ]].
  destruct (_client_registry w !! key) as [c0|] eqn:Hreg.
  { intros [= <- <-]. by exists key. }
  destruct (_PROVIDER_CLIENT_MAP provider_name) as [cls|]; [|by intros [= ]].
  pose proof (instantiate_effect cls (astral_client ≫= client_config)
                async_client w) as (Hr & Hn & Ho).
  destruct (instantiate cls _ async_client w) as [[new|e] w'];
    [|by intros [= ]].
  simpl in *. intros [= <- <-]. exists key. split; [done|].
  split; [by simpl; rewrite lookup_insert_eq|].
  intros k c'. simpl. rewrite Hr, Hn.
  destruct (decide (key = k)) as [->|Hne].
  - rewrite lookup_insert_eq. intros [= <-]. rewrite (Ho new eq_refl). lia.
  - rewrite lookup_insert_ne by done. intros Hc'. specialize (Hwf _ _ Hc'). lia.
Qed.

(** The next call for a key that is not registered, for a supported
    provider, runs the constructor; a client it returns is a new object,
    now registered under the key. *)
Lemma get_client_constructs provider_name astral_client
    (async_client : bool) (key : string) w :
  is_Some (_PROVIDER_CLIENT_MAP provider_name) ->
  get_client_key provider_name astral_client async_client = Returns key ->
  _client_registry w !! key = None ->
  next_oid (get_client provider_name astral_client async_client w).2
  = S (next_oid w)
  /\ forall c',
       (get_client provider_name astral_client async_client w).1
       = Returns c' ->
       oid c' = next_oid w
       /\ _client_registry
            (get_client provider_name astral_client async_client w).2
          !! key = Some c'.
Proof.
  intros [cls Hm] Hk Hreg.
  rewrite (get_client_miss _ _ _ key cls) by done.
  pose proof (instantiate_effect cls (astral_client ≫= client_config)
                async_client w) as (Hr & Hn & Ho).
  destruct (instantiate cls _ async_client w) as [[new|e] w']; simpl in *.
  - split; [done|]. intros c' [= <-]. split; [by apply Ho|].
    by rewrite lookup_insert_eq.
  - split; [done|]. by intros c' [= ].
Qed.

(** C3: a second [get_client] call with the same arguments returns the
    instance the first one returned and changes nothing, so it
    constructs nothing; once the key has been unregistered, or the
    cache cleared, the next call runs the constructor again and a client
    it returns is a new instance, registered under the key. *)
Theorem get_client_idempotent provider_name astral_client
    (async_client : bool) w c w1 :
  registry_allocated w ->
  is_Some (_PROVIDER_CLIENT_MAP provider_name) ->
  get_client provider_name astral_client async_client w = (Returns c, w1) ->
  get_client provider_name astral_client async_client w1 = (Returns c, w1)
  /\ forall w2,
       (w2 = clear_cache w1
        \/ exists config client_key async,
             get_client_key provider_name astral_client async_client
             = Returns (_generate_registry_key provider_name config
                          client_key async)
             /\ w2 = unregister_client provider_name config client_key
                       async w1) ->
       next_oid (get_client provider_name astral_client async_client w2).2
       = S (next_oid w2)
       /\ forall c',
            (get_client provider_name astral_client async_client w2).1
            = Returns c' ->
            oid c' <> oid c
            /\ exists key,
                 get_client_key provider_name astral_client async_client
                 = Returns key
                 /\ _client_registry
                      (get_client provider_name astral_client
                         async_client w2).2 !! key = Some c'.
Proof.
  intros Hwf Hsup Hget.
  destruct (get_client_returns _ _ _ _ _ _ Hwf Hget) as (key & Hk & Hreg & Hwf1).
  split; [by apply (get_client_hit _ _ _ key)|].
  intros w2 Hw2.
  assert (_client_registry w2 !! key = None /\ next_oid w2 = next_oid w1)
    as [Hnone Hnext].
  { destruct Hw2 as [->|(config & ck & a & Hk' & ->)].
    - simpl. by rewrite lookup_empty.
    - rewrite Hk in Hk'. injection Hk' as Hkey.
      unfold unregister_client. rewrite <- Hkey, Hreg. simpl.
      by rewrite lookup_delete_eq. }
  destruct (get_client_constructs _ astral_client async_client key w2
              Hsup Hk Hnone) as [Hn Hc'].
  split; [done|]. intros c' Hret. destruct (Hc' c' Hret) as [Ho Hr].
  split; [|by exists key].
  specialize (Hwf1 _ _ Hreg). lia.
Qed.

(** The constructor call of the registry, class by class. *)
Lemma instantiate_cases cls config (async_client : bool) w :
  instantiate cls config async_client w
  = if decide (cls = DeepSeekProviderClient)
    then (Raises (unexpected_keyword "DeepSeekProviderClient" "async_client"),
          alloc w)
    else BaseProviderClient__init__ cls (next_oid w) config (alloc w).
Proof. by destruct cls. Qed.

(** C4, as amended: with [cache_client] set to false the registry
    still derives the key and treats it like any other key: a client
    registered under it is returned and nothing is constructed;
    otherwise the constructor is called and, when it returns, the client
    is stored under the key, and when it raises, the map is unchanged.
    The flag only reaches the base initializer, which then authenticates
    and leaves the class-level cache alone. *)
Theorem cache_flag_does_not_bypass_registry provider_name
    astral_client (async_client : bool) (key : string) cls w :
  get_client_key provider_name astral_client async_client = Returns key ->
  _PROVIDER_CLIENT_MAP provider_name = Some cls ->
  cache_client_flag (section_of cls (astral_client ≫= client_config))
  = false ->
  let config := astral_client ≫= client_config in
  let run := auth_run_of cls config in
  (forall c, _client_registry w !! key = Some c ->
             get_client provider_name astral_client async_client w
             = (Returns c, w))
  /\ (_client_registry w !! key = None ->
      let r := get_client provider_name astral_client async_client w in
      _client_cache r.2 = _client_cache w
      /\ next_oid r.2 = S (next_oid w)
      /\ match r.1 with
         | Returns c =>
             oid c = next_oid w
             /\ auth_result run = Returns (client c)
             /\ _client_registry r.2 = <[key := c]> (_client_registry w)
         | Raises e =>
             (cls = DeepSeekProviderClient \/ auth_result run = Raises e)
             /\ _client_registry r.2 = _client_registry w
         end)
  /\ (forall (self : nat) w0,
        _client_cache (BaseProviderClient__init__ cls self config w0).2
        = _client_cache w0
        /\ auth_trace (BaseProviderClient__init__ cls self config w0).2
           = auth_trace w0 ++ ((fun n => (cls, n)) <$> auth_invoked run)).
Proof.
  intros Hk Hm Hflag config run. split; [|split].
  - intros c Hc. by apply (get_client_hit _ _ _ key).
  - intros Hnone. rewrite (get_client_miss _ _ _ key cls) by done.
    rewrite instantiate_cases.
    destruct (decide (cls = DeepSeekProviderClient)) as [->|Hcls].
    + simpl. split; [done|]. split; [done|]. split; [by left | done].
    + rewrite init_without_cache by done. fold config. fold run.
      destruct (auth_result run) as [h|e]; simpl.
      * by split_and!.
      * split_and!; try done. by right.
  - intros self w0. by rewrite init_without_cache.
Qed.

(** C8: for a provider that is not a key of the class map, a
    [get_client] call whose derived key is not registered raises
    [ProviderNotSupportedError] carrying the name, and so does
    [get_adapter] for a provider that is neither cached nor a key of the
    adapter map; neither call changes the state. *)
Theorem unsupported_provider_rejected provider_name astral_client
    (async_client : bool) (key : string) w :
  (_PROVIDER_CLIENT_MAP provider_name = None ->
   get_client_key provider_name astral_client async_client = Returns key ->
   _client_registry w !! key = None ->
   get_client provider_name astral_client async_client w
   = (Raises (ProviderNotSupportedError provider_name), w))
  /\ (_PROVIDER_ADAPTER_MAP provider_name = None ->
      _adapter_cache w !! provider_name = None ->
      get_adapter provider_name w
      = (Raises (ProviderNotSupportedError provider_name), w)).
Proof.
  split.
  - intros Hm Hk Hreg. unfold get_client. by rewrite Hk, Hreg, Hm.
  - intros Hm Hc. unfold get_adapter. by rewrite Hc, Hm.
Qed.

End Registries.

(** ** Serialization of a request *)

Lemma field_name_inj : Inj (=) (=) field_name.
Proof.
  intros f g Hfg.
  destruct (decide (f = g)) as [|Hne]; [done|exfalso].
  destruct f, g; first [by apply Hne | discriminate Hfg].
Qed.

Section ToProviderDict.
Context {V : Type} (serialize : V -> V).
Implicit Types (self : AstralCompletionRequest V) (f : Field).

Lemma dump_value_given (value : FieldValue V) :
  is_not_NOT_GIVEN (dump_value serialize value) = is_not_NOT_GIVEN value.
Proof. by destruct value. Qed.





End ToProviderDict.


(** ** The statements at concrete inputs *)

Module Witnesses.
Import Examples.

(** C1: a pinned strategy that raises [E1]. *)
Lemma single_candidate_failure_reraised_witness :
  auth_result (@_get_or_authenticate_client runtime
                 [("api_key", fails E1); ("oauth", succeeds 7)]
                 "openai" (pinned "api_key"))
  = Raises E1.
Proof.
  apply (@single_candidate_failure_reraised runtime
           [("api_key", fails E1); ("oauth", succeeds 7)]
           "openai" (pinned "api_key") "api_key" (fails E1) E1);
    reflexivity.
Defined.

(** C6: the first strategy raises, the second succeeds, the third is
    not called. *)
Lemma fallback_short_circuit_witness :
  auth_result (@_get_or_authenticate_client runtime fallback_table
                 "openai" empty_config) = Returns (Some 7)
  /\ auth_invoked (@_get_or_authenticate_client runtime fallback_table
                     "openai" empty_config) = ["oauth"; "api_key"]
  /\ auth_errors (@_get_or_authenticate_client runtime fallback_table
                    "openai" empty_config) = [("oauth", E1)].
Proof.
  apply (@fallback_short_circuit runtime fallback_table "openai"
           empty_config [("oauth", fails E1)] "api_key" (succeeds 7)
           [("sso", fails E2)] (Some 7)); try reflexivity.
  apply Forall_cons; split; [exact I | apply Forall_nil_2].
Defined.

(** C7: ["saml"] is pinned and is not a registered method. *)
Lemma unknown_pinned_method_witness :
  auth_result (@_get_or_authenticate_client runtime fallback_table
                 "openai" (pinned "saml"))
  = Raises (AstralUnknownAuthMethodError
              "Unknown authentication method 'saml' for provider 'openai'. Supported methods: [oauth, api_key, sso]"
              "saml" "openai" ["oauth"; "api_key"; "sso"])
  /\ auth_invoked (@_get_or_authenticate_client runtime fallback_table
                     "openai" (pinned "saml")) = [].
Proof.
  destruct (@unknown_pinned_method runtime fallback_table "openai"
              (pinned "saml") {| auth_method := "saml" |})
    as (H1 & H2 & _).
  - reflexivity.
  - apply (bool_decide_unpack _). vm_compute. exact I.
  - split; [exact H1 | exact H2].
Defined.

Lemma first_call_returns : first_call.1 = Returns first_client.
Proof. reflexivity. Qed.

Lemma initial_world_allocated : registry_allocated (@initial_world runtime).
Proof. intros key c. simpl. by rewrite lookup_empty. Qed.

(** C3: the second call returns the first client; after [clear_cache]
    the next call allocates a new object. *)
Lemma get_client_idempotent_witness :
  @get_client runtime openai_classes "openai" None false first_call.2
  = (Returns first_client, first_call.2)
  /\ next_oid (@get_client runtime openai_classes "openai" None false
                 (clear_cache first_call.2)).2 = 2.
Proof.
  destruct (@get_client_idempotent runtime openai_classes "openai" None
              false initial_world first_client first_call.2) as [H1 H2].
  - apply initial_world_allocated.
  - by eexists.
  - reflexivity.
  - split; [exact H1|].
    destruct (H2 (clear_cache first_call.2)) as [Hn _]; [by left|].
    exact Hn.
Defined.

(** C10: a second OpenAI client, built with another configuration
    that pins an unknown method, still gets the cached handle. *)
Lemma class_cache_reused_witness :
  (@BaseProviderClient__init__ runtime openai_classes OpenAIProviderClient
     1 (Some [("openai", pinned "saml")]) first_call.2).1
  = Returns (@Build_ProviderClient runtime 1 OpenAIProviderClient
               [("openai", pinned "saml")] (pinned "saml") (Some 7)).
Proof.
  rewrite (@class_cache_reused runtime openai_classes OpenAIProviderClient
             1 (Some [("openai", pinned "saml")]) first_call.2 (Some 7));
    reflexivity.
Defined.

(** C4: a configuration with [cache_client] set to false, passed
    with the explicit key ["tenant-a"]. *)
Lemma cache_flag_does_not_bypass_registry_witness :
  _client_cache no_cache_call.2 = ∅
  /\ next_oid no_cache_call.2 = 1.
Proof.
  destruct (@cache_flag_does_not_bypass_registry runtime openai_classes
              "openai" (Some no_cache_params) false no_cache_key
              OpenAIProviderClient initial_world) as (_ & H & _);
    [reflexivity..|].
  destruct (H eq_refl) as (Hc & Hn & _).
  split; [exact Hc | exact Hn].
Defined.

(** C4, counterexample: the configuration sets [cache_client] to false
    and comes with the explicit key ["tenant-a"], so that no entry of the
    configuration is serialized for the key.  The client built by the
    first call is stored in the registry map, which therefore changes,
    and the second call finds it there and returns that same instance
    without constructing or authenticating. *)
Lemma no_cache_client_is_registered :
  cache_client_flag no_cache = false
  /\ (exists c, no_cache_call.1 = Returns c
                /\ _client_registry no_cache_call.2 !! no_cache_key = Some c
                /\ @get_client runtime openai_classes "openai"
                     (Some no_cache_params) false no_cache_call.2
                   = (Returns c, no_cache_call.2))
  /\ _client_registry no_cache_call.2
     <> _client_registry (@initial_world runtime).
Proof.
  split; [reflexivity|]. split.
  - eexists. split; [reflexivity|]. split; reflexivity.
  - intros Heq.
    assert (_client_registry no_cache_call.2 !! no_cache_key = None) as H.
    { rewrite Heq. apply lookup_empty. }
    vm_compute in H. discriminate H.
Qed.

(** C8: ["unknown"] is in neither map. *)
Lemma unsupported_provider_rejected_witness :
  @get_client runtime openai_classes "unknown" None false initial_world
  = (Raises (ProviderNotSupportedError "unknown"), initial_world)
  /\ @get_adapter runtime openai_classes "unknown" initial_world
     = (Raises (ProviderNotSupportedError "unknown"), initial_world).
Proof.
  destruct (@unsupported_provider_rejected runtime openai_classes
              "unknown" None false "unknown" initial_world) as [H1 H2].
  split; [apply H1 | apply H2]; reflexivity.
Defined.

End Witnesses.

(** * Further properties *)

(** ** Runs of the authentication loop *)

Section AuthenticationRuns.
Context `{rt : Runtime}.
Implicit Types (tbl methods pre post : list (string * AuthCallable)).
Implicit Types (cfg : ProviderConfig) (provider name : string).

(** The loop calls a prefix of the candidates, in order, and records
    the failures of that prefix that were raised. *)
Lemma try_methods_trace provider cfg single methods errors invoked :
  exists pre post,
    methods = pre ++ post
    /\ auth_invoked (try_methods provider cfg single methods errors invoked)
       = invoked ++ pre.*1
    /\ auth_errors (try_methods provider cfg single methods errors invoked)
       = errors ++ raised_by cfg pre.
Proof.
  revert errors invoked.
  induction methods as [|[n s] rest IH]; intros errors invoked.
  - exists [], []. simpl. by rewrite !app_nil_r.
  - simpl. destruct (s cfg get_env_vars) as [h|e] eqn:Hs.
    + destruct (truthy h).
      * exists [(n, s)], rest. simpl. by rewrite Hs, app_nil_r.
      * destruct (IH errors (invoked ++ [n])) as (pre & post & -> & Hi & He).
        exists ((n, s) :: pre), post. simpl. rewrite Hs, Hi, He.
        by rewrite <- (assoc_L (++) invoked).
    + destruct single.
      * exists [(n, s)], rest. simpl. by rewrite Hs.
      * destruct (IH (errors ++ [(n, e)]) (invoked ++ [n]))
          as (pre & post & -> & Hi & He).
        exists ((n, s) :: pre), post. simpl. rewrite Hs, Hi, He.
        by rewrite <- !(assoc_L (++)).
Qed.

(** A handle returned by the loop is truthy and is what one of the
    candidates returned. *)
Lemma try_methods_returns provider cfg single methods errors invoked
    (h : Handle) :
  auth_result (try_methods provider cfg single methods errors invoked)
  = Returns h ->
  truthy h = true
  /\ exists name (strategy : AuthCallable),
       (name, strategy) ∈ methods
       /\ strategy cfg get_env_vars = Returns h.
Proof.
  revert errors invoked.
  induction methods as [|[n s] rest IH]; intros errors invoked; simpl.
  - by intros [= ].
  - destruct (s cfg get_env_vars) as [h'|e] eqn:Hs.
    + destruct (truthy h') eqn:Ht.
      * intros [= ->]. split; [done|]. exists n, s.
        split; [apply list_elem_of_here | done].
      * intros Hr. destruct (IH _ _ Hr) as (? & n' & s' & Hin & Hs').
        split; [done|]. exists n', s'.
        split; [by apply list_elem_of_further | done].
    + destruct single; [by intros [= ]|].
      intros Hr. destruct (IH _ _ Hr) as (? & n' & s' & Hin & Hs').
      split; [done|]. exists n', s'.
      split; [by apply list_elem_of_further | done].
Qed.

(** When more than one candidate is tried, an error of the loop is the
    consolidated one and every candidate has failed. *)
Lemma try_methods_raises provider cfg methods errors invoked (e : Exn) :
  auth_result (try_methods provider cfg false methods errors invoked)
  = Raises e ->
  Forall (attempt_fails cfg) methods
  /\ e = MultipleAstralAuthenticationErrors EmptyString provider
           "multiple_failed" format_exc (errors ++ raised_by cfg methods).
Proof.
  revert errors invoked.
  induction methods as [|[n s] rest IH]; intros errors invoked; simpl.
  - intros [= <-]. split; [apply Forall_nil_2 | by rewrite app_nil_r].
  - destruct (s cfg get_env_vars) as [h|e'] eqn:Hs.
    + destruct (truthy h) eqn:Ht; [by intros [= ]|].
      intros Hr. destruct (IH _ _ Hr) as [Hall ->].
      split; [|done]. apply Forall_cons. split; [|done].
      unfold attempt_fails. simpl. by rewrite Hs.
    + intros Hr. destruct (IH _ _ Hr) as [Hall ->].
      split; [|by rewrite <- (assoc_L (++))].
      apply Forall_cons. split; [|done].
      unfold attempt_fails. simpl. by rewrite Hs.
Qed.

(** X1: a handle returned by the method is truthy and was returned by a
    strategy registered in the table of the class. *)
Theorem authenticated_handle_from_table tbl provider cfg (h : Handle) :
  auth_result (_get_or_authenticate_client tbl provider cfg) = Returns h ->
  truthy h = true
  /\ exists name (strategy : AuthCallable),
       (name, strategy) ∈ tbl
       /\ strategy cfg get_env_vars = Returns h.
Proof.
  unfold _get_or_authenticate_client, methods_to_try.
  destruct (cfg_auth_method cfg) as [amc|].
  - destruct (dict_get tbl (auth_method amc)) as [s|] eqn:Hget;
      [|by intros [= ]].
    intros Hr. apply try_methods_returns in Hr as (Ht & n & s' & Hin & Hs).
    split; [done|]. exists n, s'. split; [|done].
    apply list_elem_of_singleton in Hin as [= -> ->].
    by apply dict_get_Some_elem.
  - apply try_methods_returns.
Qed.

(** X2: a pinned, registered method is final.  Only that strategy is
    called, whatever it does: its handle is returned when truthy, its
    exception is raised as it is, and a falsy handle leads to the
    consolidated error; no other strategy of the table is tried. *)
Theorem pinned_method_is_final tbl provider cfg amc (strategy : AuthCallable) :
  cfg_auth_method cfg = Some amc ->
  dict_get tbl (auth_method amc) = Some strategy ->
  auth_invoked (_get_or_authenticate_client tbl provider cfg)
  = [auth_method amc]
  /\ auth_result (_get_or_authenticate_client tbl provider cfg)
     = match strategy cfg get_env_vars with
       | Returns h =>
           if truthy h then Returns h
           else Raises (MultipleAstralAuthenticationErrors EmptyString
                          provider "multiple_failed" format_exc [])
       | Raises e => Raises e
       end.
Proof.
  intros Hc Hg. unfold _get_or_authenticate_client, methods_to_try.
  rewrite Hc, Hg. simpl.
  destruct (strategy cfg get_env_vars) as [h|e]; [|done].
  by destruct (truthy h).
Qed.

(** X3: the strategies are called in the order of the candidate list,
    without gaps and at most once each: the names called are those of a
    prefix of the candidates, and [errors] holds exactly the failures
    raised by that prefix. *)
Theorem strategies_called_in_order tbl provider cfg methods :
  methods_to_try tbl provider cfg = Returns methods ->
  exists pre post,
    methods = pre ++ post
    /\ auth_invoked (_get_or_authenticate_client tbl provider cfg) = pre.*1
    /\ auth_errors (_get_or_authenticate_client tbl provider cfg)
       = raised_by cfg pre.
Proof.
  intros Hm. unfold _get_or_authenticate_client. rewrite Hm.
  apply try_methods_trace.
Qed.

(** X4: without a pinned method and with two or more strategies that all
    fail, every strategy is called and the consolidated error carries the
    provider name and the failures raised, in call order. *)
Theorem total_failure_aggregated tbl provider cfg :
  cfg_auth_method cfg = None ->
  1 < length tbl ->
  Forall (attempt_fails cfg) tbl ->
  auth_result (_get_or_authenticate_client tbl provider cfg)
  = Raises (MultipleAstralAuthenticationErrors EmptyString provider
              "multiple_failed" format_exc (raised_by cfg tbl))
  /\ auth_invoked (_get_or_authenticate_client tbl provider cfg) = tbl.*1.
Proof.
  intros Hc Hlen Hall.
  unfold _get_or_authenticate_client, methods_to_try. rewrite Hc.
  rewrite bool_decide_eq_false_2 by lia.
  pose proof (try_methods_skip provider cfg tbl [] [] [] Hall) as Hskip.
  rewrite app_nil_r in Hskip. rewrite Hskip. by simpl.
Qed.

(** X5: without a pinned method and with two or more strategies, the
    exception of a single strategy never reaches the caller: an error of
    the method is the consolidated error, and then every strategy has
    failed. *)
Theorem fallback_error_is_consolidated tbl provider cfg (e : Exn) :
  cfg_auth_method cfg = None ->
  1 < length tbl ->
  auth_result (_get_or_authenticate_client tbl provider cfg) = Raises e ->
  e = MultipleAstralAuthenticationErrors EmptyString provider
        "multiple_failed" format_exc (raised_by cfg tbl)
  /\ Forall (attempt_fails cfg) tbl.
Proof.
  intros Hc Hlen.
  unfold _get_or_authenticate_client, methods_to_try. rewrite Hc.
  rewrite bool_decide_eq_false_2 by lia.
  intros Hr. by apply try_methods_raises in Hr as [Hall ->].
Qed.

End AuthenticationRuns.

(** ** The initializer and the class-level cache *)

Lemma string_app_inv_empty (s t : string) : s +:+ t = s -> t = EmptyString.
Proof. induction s as [|a s IH]; simpl; [done|]. intros [= H]. auto. Qed.

Section InitializerAndRegistry.
Context `{pc : ProviderClasses}.
Implicit Types (w : World) (cls : ClientClass) (c : ProviderClient).
Implicit Types (config : option FullConfig).
Implicit Types (astral_client : option AstralClientParams).

(** What the initializer leaves alone, and what it does to the
    class-level cache. *)
Lemma init_effect cls (self : nat) config w :
  let r := BaseProviderClient__init__ cls self config w in
  _client_registry r.2 = _client_registry w
  /\ _adapter_cache r.2 = _adapter_cache w
  /\ next_oid r.2 = next_oid w
  /\ _client_cache w ⊆ _client_cache r.2
  /\ (forall cls', cls' <> cls ->
        _client_cache r.2 !! cls' = _client_cache w !! cls')
  /\ (forall e, r.1 = Raises e -> _client_cache r.2 = _client_cache w)
  /\ (forall c, r.1 = Returns c ->
        oid c = self /\ client_class c = cls
        /\ (cache_client_flag (section_of cls config) = true ->
            _client_cache r.2 !! cls = Some (client c))).
Proof.
  unfold BaseProviderClient__init__. fold (section_of cls config).
  fold (auth_run_of cls config).
  destruct (cache_client_flag (section_of cls config)) eqn:Hflag.
  - destruct (_client_cache w !! cls) as [h|] eqn:Hcache; simpl.
    + split_and!; try done. by intros c [= <-].
    + destruct (auth_result (auth_run_of cls config)) as [h|e]; simpl.
      * split_and!; try done.
        -- by apply insert_subseteq.
        -- intros cls' Hne. by rewrite lookup_insert_ne.
        -- intros c [= <-]. simpl. split_and!; try done.
           intros _. by rewrite lookup_insert_eq.
      * split_and!; done.
  - simpl. destruct (auth_result (auth_run_of cls config)) as [h|e]; simpl.
    + split_and!; try done. by intros c [= <-].
    + split_and!; done.
Qed.

(** X6: the initializer never replaces or evicts a cached handle, and
    the only entry of the class-level cache it can add is the one of its
    own class. *)
Theorem class_cache_only_grows cls (self : nat) config w :
  _client_cache w ⊆ _client_cache (BaseProviderClient__init__ cls self config w).2
  /\ forall cls', cls' <> cls ->
       _client_cache (BaseProviderClient__init__ cls self config w).2 !! cls'
       = _client_cache w !! cls'.
Proof.
  pose proof (init_effect cls self config w) as (_ & _ & _ & H1 & H2 & _).
  by split.
Qed.

(** X7: after an initializer call that returned with [cache_client]
    enabled, every later initializer call of the same class with
    [cache_client] enabled takes the handle of the first one and changes
    nothing: the class authenticates at most once. *)
Theorem second_init_reuses_handle cls (o1 o2 : nat) config1 config2 w c1 w1 :
  cache_client_flag (section_of cls config1) = true ->
  cache_client_flag (section_of cls config2) = true ->
  BaseProviderClient__init__ cls o1 config1 w = (Returns c1, w1) ->
  BaseProviderClient__init__ cls o2 config2 w1
  = (Returns {| oid := o2; client_class := cls;
                _full_config := resolve_full_config config2;
                _config := section_of cls config2;
                client := client c1 |}, w1).
Proof.
  intros Hf1 Hf2 Hinit.
  pose proof (init_effect cls o1 config1 w) as (_ & _ & _ & _ & _ & _ & Hret).
  rewrite Hinit in Hret. simpl in Hret.
  destruct (Hret c1 eq_refl) as (_ & _ & Hcache).
  specialize (Hcache Hf1).
  unfold BaseProviderClient__init__. fold (section_of cls config2).
  by rewrite Hf2, Hcache.
Qed.

Lemma instantiate_effect_full cls config (async_client : bool) w :
  let r := instantiate cls config async_client w in
  _client_registry r.2 = _client_registry w
  /\ next_oid r.2 = S (next_oid w)
  /\ _client_cache w ⊆ _client_cache r.2
  /\ (forall e, r.1 = Raises e -> _client_cache r.2 = _client_cache w)
  /\ (forall c, r.1 = Returns c -> oid c = next_oid w)
  /\ _adapter_cache r.2 = _adapter_cache w.
Proof.
  rewrite instantiate_cases.
  destruct (decide (cls = DeepSeekProviderClient)) as [->|Hcls]; simpl.
  { by split_and!. }
  pose proof (init_effect cls (next_oid w) config (alloc w))
    as (H1 & H2 & H3 & H4 & _ & H6 & H7).
  simpl in *. split_and!; try done.
  intros c Hc. by destruct (H7 c Hc).
Qed.

(** X8: a [get_client] call that raises stores nothing: the registry
    map and the class-level cache are as before the call. *)
Theorem failed_get_client_stores_nothing provider_name astral_client
    (async_client : bool) w (e : Exn) w' :
  get_client provider_name astral_client async_client w = (Raises e, w') ->
  _client_registry w' = _client_registry w
  /\ _client_cache w' = _client_cache w
  /\ _adapter_cache w' = _adapter_cache w.
Proof.
  unfold get_client.
  destruct (get_client_key _ _ _) as [key|e0]; [|by intros [= _ <-]].
  destruct (_client_registry w !! key) as [c0|]; [by intros [= ]|].
  destruct (_PROVIDER_CLIENT_MAP provider_name) as [cls|];
    [|by intros [= _ <-]].
  pose proof (instantiate_effect_full cls (astral_client ≫= client_config)
                async_client w) as (H1 & _ & _ & H4 & _ & H6).
  destruct (instantiate cls _ async_client w) as [[new|e1] w1];
    [by intros [= ]|].
  simpl in *. intros [= _ <-]. split; [done|]. split; [|done].
  by apply (H4 e1).
Qed.

(** X9: a [get_client] call only adds to the registry: every entry is
    kept with its client, at most one entry is new, and a client that is
    returned can be read back by name under the derived key. *)
Theorem get_client_only_adds provider_name astral_client
    (async_client : bool) w :
  let r := get_client provider_name astral_client async_client w in
  _client_registry w ⊆ _client_registry r.2
  /\ get_client_count r.2 <= S (get_client_count w)
  /\ forall c, r.1 = Returns c ->
       exists key,
         get_client_key provider_name astral_client async_client
         = Returns key
         /\ get_client_by_name key r.2 = Returns c.
Proof.
  unfold get_client, get_client_count, get_client_by_name.
  destruct (get_client_key _ _ _) as [key|e0]; simpl.
  2:{ split; [done|]. split; [lia|]. by intros c [= ]. }
  destruct (_client_registry w !! key) as [c0|] eqn:Hreg; simpl.
  { split; [done|]. split; [lia|]. intros c [= <-]. exists key.
    by rewrite Hreg. }
  destruct (_PROVIDER_CLIENT_MAP provider_name) as [cls|]; simpl.
  2:{ split; [done|]. split; [lia|]. by intros c [= ]. }
  pose proof (instantiate_effect_full cls (astral_client ≫= client_config)
                async_client w) as (H1 & _).
  destruct (instantiate cls _ async_client w) as [[new|e1] w1]; simpl in *.
  - rewrite H1. split; [by apply insert_subseteq|].
    split; [by rewrite map_size_insert_None|].
    intros c [= <-]. exists key. by rewrite lookup_insert_eq.
  - rewrite H1. split; [done|]. split; [lia|]. by intros c [= ].
Qed.

(** X11: a client registered by hand is the one [get_client] returns
    for the same provider, configuration, key and variant, for every
    provider name, supported or not, and nothing is constructed; it can
    also be read back by name. *)
Theorem registered_client_returned provider_name c config
    (client_key : option string) (async_client : bool) w :
  let w1 := register_client provider_name c config client_key
              async_client w in
  get_client provider_name
    (Some {| new_client := false; client_key := client_key;
             client_config := config |}) async_client w1
  = (Returns c, w1)
  /\ get_client_by_name
       (_generate_registry_key provider_name config client_key async_client)
       w1 = Returns c.
Proof.
  unfold get_client, get_client_by_name, register_client. simpl.
  by rewrite !lookup_insert_eq.
Qed.

(** X12: [unregister_client] removes the entry of the derived key and
    no other; it does nothing when the key is not registered, and it does
    not touch the class-level cache of authenticated handles. *)
Theorem unregister_client_removes_one provider_name config
    (client_key : option string) (async_client : bool) w :
  let key := _generate_registry_key provider_name config client_key
               async_client in
  let w1 := unregister_client provider_name config client_key
              async_client w in
  get_client_by_name key w1 = Raises (KeyError key)
  /\ (forall name, name <> key ->
        get_client_by_name name w1 = get_client_by_name name w)
  /\ unregister_client provider_name config client_key async_client w1 = w1
  /\ _client_cache w1 = _client_cache w
  /\ (_client_registry w !! key = None -> w1 = w).
Proof.
  unfold unregister_client, get_client_by_name.
  destruct (_client_registry w !! _) as [c0|] eqn:Hreg; simpl.
  - rewrite !lookup_delete_eq. repeat split; try done.
    intros name Hne. by rewrite lookup_delete_ne.
  - rewrite !Hreg. repeat split; done.
Qed.

(** X13: [clear_cache] empties the registry but not the class-level
    cache of authenticated handles.  For a class with a cached handle and
    [cache_client] enabled, the next [get_client] call calls no strategy:
    it returns a new client around the old handle, except for
    [DeepSeekProviderClient], whose constructor call raises [TypeError] as
    on every miss. *)
Theorem clear_cache_keeps_handles provider_name astral_client
    (async_client : bool) (key : string) cls w (h : Handle) :
  _PROVIDER_CLIENT_MAP provider_name = Some cls ->
  get_client_key provider_name astral_client async_client = Returns key ->
  cache_client_flag (section_of cls (astral_client ≫= client_config)) = true ->
  _client_cache w !! cls = Some h ->
  let config := astral_client ≫= client_config in
  let r := get_client provider_name astral_client async_client
             (clear_cache w) in
  get_client_count (clear_cache w) = 0
  /\ _client_cache (clear_cache w) = _client_cache w
  /\ auth_trace r.2 = auth_trace w
  /\ r.1 = (if decide (cls = DeepSeekProviderClient)
            then Raises (unexpected_keyword "DeepSeekProviderClient"
                           "async_client")
            else Returns {| oid := next_oid w; client_class := cls;
                            _full_config := resolve_full_config config;
                            _config := section_of cls config;
                            client := h |}).
Proof.
  intros Hm Hk Hflag Hcache config r. split.
  { unfold get_client_count, clear_cache. simpl. apply map_size_empty. }
  split; [done|]. unfold r, get_client. rewrite Hk. simpl.
  rewrite lookup_empty, Hm, instantiate_cases.
  destruct (decide (cls = DeepSeekProviderClient)) as [->|Hcls]; [done|].
  unfold BaseProviderClient__init__.
  fold (section_of cls (astral_client ≫= client_config)).
  rewrite Hflag. simpl. by rewrite Hcache.
Qed.

(** X14: the synchronous and the asynchronous variant never share a
    registry key. *)
Theorem sync_async_keys_distinct (provider_name : string)
    config (client_key : option string) :
  _generate_registry_key provider_name config client_key true
  <> _generate_registry_key provider_name config client_key false.
Proof.
  unfold _generate_registry_key. intros Heq.
  by apply string_app_inv_empty in Heq.
Qed.

(** A non-empty [client_key] alone decides the key of a [get_client]
    call. *)
Lemma explicit_key_derivation (provider_name : string)
    (ac : AstralClientParams) (async_client : bool) :
  str_truthy (client_key ac) = true ->
  get_client_key provider_name (Some ac) async_client
  = Returns (_generate_registry_key EmptyString None (client_key ac)
               async_client).
Proof.
  intros Hk. unfold get_client_key, _generate_registry_key. rewrite Hk.
  by destruct (new_client ac).
Qed.

(** A client returned by [get_client] is registered under the derived
    key. *)
Lemma get_client_registers provider_name astral_client
    (async_client : bool) w c w1 (key : string) :
  get_client_key provider_name astral_client async_client = Returns key ->
  get_client provider_name astral_client async_client w = (Returns c, w1) ->
  _client_registry w1 !! key = Some c.
Proof.
  intros Hk. unfold get_client. rewrite Hk.
  destruct (_client_registry w !! key) as [c0|] eqn:Hreg.
  { by intros [= <- <-]. }
  destruct (_PROVIDER_CLIENT_MAP provider_name) as [cls|]; [|by intros [= ]].
  destruct (instantiate cls _ async_client w) as [[new|e1] w0];
    [|by intros [= ]].
  intros [= <- <-]. simpl. by rewrite lookup_insert_eq.
Qed.

(** X15: an explicit key is not scoped by the provider.  Once a call
    with a non-empty [client_key] has returned a client, a call with the
    same key and variant for any other provider name and configuration
    returns that very client, and nothing is constructed. *)
Theorem explicit_key_shared_across_providers (p1 p2 : string)
    (ac1 ac2 : AstralClientParams) (async_client : bool) w c w1 :
  str_truthy (client_key ac1) = true ->
  client_key ac2 = client_key ac1 ->
  get_client p1 (Some ac1) async_client w = (Returns c, w1) ->
  get_client p2 (Some ac2) async_client w1 = (Returns c, w1).
Proof.
  intros Hk Hsame Hget.
  pose proof (explicit_key_derivation p1 ac1 async_client Hk) as Hk1.
  assert (str_truthy (client_key ac2) = true) as Hk' by (by rewrite Hsame).
  pose proof (explicit_key_derivation p2 ac2 async_client Hk') as Hk2.
  rewrite Hsame in Hk2.
  apply (get_client_hit _ _ _ _ _ _ Hk2).
  by apply (get_client_registers p1 (Some ac1) async_client w c w1).
Qed.

End InitializerAndRegistry.

(** ** The adapter registry *)

Section AdapterRegistryProperties.
Context `{pc : ProviderClasses}.
Implicit Types (w : World) (adapter : Adapter).

(** X16: [get_adapter] is idempotent: once it has returned an adapter
    for a provider, the next call returns the same adapter and changes
    nothing. *)
Theorem get_adapter_idempotent (model_provider : string) w adapter w1 :
  get_adapter model_provider w = (Returns adapter, w1) ->
  get_adapter model_provider w1 = (Returns adapter, w1).
Proof.
  unfold get_adapter.
  destruct (_adapter_cache w !! model_provider) as [a0|] eqn:Hc.
  { intros [= <- <-]. by rewrite Hc. }
  destruct (_PROVIDER_ADAPTER_MAP model_provider) as [cls|];
    [|by intros [= ]].
  destruct (adapter_init cls) as [[]|]; try (by intros [= ]).
  intros [= <- <-]. simpl. by rewrite lookup_insert_eq.
Qed.

(** X17: an adapter registered by hand is returned by [get_adapter] for
    every provider name, also one that is not in the adapter map, and no
    adapter is constructed. *)
Theorem registered_adapter_returned (model_provider : string) adapter w :
  get_adapter model_provider
    (AdapterRegistry.register_adapter model_provider adapter w)
  = (Returns adapter,
     AdapterRegistry.register_adapter model_provider adapter w).
Proof.
  unfold get_adapter, AdapterRegistry.register_adapter. simpl.
  by rewrite lookup_insert_eq.
Qed.

(** X18: when the constructor of the adapter class raises, nothing is
    cached; a [KeyError] raised by the constructor is turned into
    [ProviderNotSupportedError] although the provider is in the adapter
    map, and any other exception is raised as it is. *)
Theorem adapter_constructor_failure (model_provider : string)
    (cls : AdapterClass) (e : Exn) w :
  _adapter_cache w !! model_provider = None ->
  _PROVIDER_ADAPTER_MAP model_provider = Some cls ->
  adapter_init cls = Some e ->
  (get_adapter model_provider w).1
  = Raises (match e with
            | KeyError _ => ProviderNotSupportedError model_provider
            | _ => e
            end)
  /\ _adapter_cache (get_adapter model_provider w).2 = _adapter_cache w
  /\ _client_registry (get_adapter model_provider w).2 = _client_registry w.
Proof.
  intros Hc Hm He. unfold get_adapter. rewrite Hc, Hm, He.
  by destruct e.
Qed.

(** X19: after [unregister_adapter] for the provider, or after
    [clear_cache], [get_adapter] builds a new adapter object of the
    provider's class and caches it. *)
Theorem removed_adapter_rebuilt (model_provider : string)
    (cls : AdapterClass) w w1 :
  _PROVIDER_ADAPTER_MAP model_provider = Some cls ->
  adapter_init cls = None ->
  w1 = AdapterRegistry.unregister_adapter model_provider w
  \/ w1 = AdapterRegistry.clear_cache w ->
  (get_adapter model_provider w1).1
  = Returns {| adapter_oid := next_oid w; adapter_class := cls |}
  /\ _adapter_cache (get_adapter model_provider w1).2 !! model_provider
     = Some {| adapter_oid := next_oid w; adapter_class := cls |}
  /\ next_oid (get_adapter model_provider w1).2 = S (next_oid w).
Proof.
  intros Hm Hi Hw1.
  assert (_adapter_cache w1 !! model_provider = None
          /\ next_oid w1 = next_oid w) as [Hnone Hnext].
  { destruct Hw1 as [->| ->].
    - unfold AdapterRegistry.unregister_adapter.
      destruct (_adapter_cache w !! model_provider) eqn:Hc; simpl;
        [by rewrite lookup_delete_eq | done].
    - simpl. by rewrite lookup_empty. }
  unfold get_adapter. rewrite Hnone, Hm, Hi. simpl. rewrite Hnext.
  by rewrite lookup_insert_eq.
Qed.

End AdapterRegistryProperties.

(** ** The order of a serialized request *)

Section ProviderDictOrder.
Context {V : Type} (serialize : V -> V).

Lemma provider_dict_keys_of (self : AstralCompletionRequest V)
    (l : list Field) :
  (filter (fun kv : string * FieldValue V => is_not_NOT_GIVEN kv.2)
     ((fun g => (field_name g, dump_value serialize (field_value self g)))
        <$> filter (fun g => fields_set self g) l)).*1
  = field_name
      <$> filter (fun g => fields_set self g
                           && is_not_NOT_GIVEN (field_value self g)) l.
Proof.
  induction l as [|g l IH]; [done|].
  rewrite !filter_cons.
  destruct (decide (fields_set self g)) as [Hg|Hg];
    destruct (decide (fields_set self g
                      && is_not_NOT_GIVEN (field_value self g))) as [Hb|Hb].
  - rewrite fmap_cons, filter_cons. cbn [snd].
    rewrite dump_value_given.
    apply andb_prop_elim in Hb as [_ Hv].
    rewrite decide_True by done.
    rewrite !fmap_cons. cbn [fst]. f_equal. exact IH.
  - rewrite fmap_cons, filter_cons. cbn [snd].
    rewrite dump_value_given.
    rewrite decide_False; [exact IH|].
    intros Hv. apply Hb. by apply andb_prop_intro.
  - by apply andb_prop_elim in Hb as [? _].
  - exact IH.
Qed.

(** X21: the keys of the dictionary are the names of the fields that
    were set to something other than [NOT_GIVEN], in the declaration order
    of the fields and without repetition. *)
Theorem to_provider_dict_keys (self : AstralCompletionRequest V) :
  (to_provider_dict serialize self).*1
  = field_name
      <$> filter (fun f => fields_set self f
                           && is_not_NOT_GIVEN (field_value self f))
            all_fields
  /\ NoDup (to_provider_dict serialize self).*1.
Proof.
  unfold to_provider_dict, model_dump_exclude_unset.
  rewrite provider_dict_keys_of. split; [done|].
  apply (NoDup_fmap_2 (Inj0 := field_name_inj) field_name).
  apply NoDup_filter.
  apply (bool_decide_unpack _). vm_compute. exact I.
Qed.

End ProviderDictOrder.

(** ** The credentials of the DeepSeek client *)

(** X22: when the credential check for ["api_key_with_base_url"]
    returns, the dictionary holds exactly one entry, ["api_key"], whose
    value is not empty; it is the value configured for the method under
    ["deepseek"] when that is a non-empty string, and otherwise the
    environment variable [DEEPSEEK_API_KEY]. *)
Theorem deepseek_credentials_source
    (config : list (string * list (string * string)))
    (env credentials : list (string * string)) :
  DeepSeek._validate_credentials "api_key_with_base_url" config env
  = Returns credentials ->
  exists key,
    credentials = [("api_key", key)]
    /\ key <> EmptyString
    /\ let configured :=
         dict_get (default [] (dict_get config "deepseek"))
           "api_key_with_base_url" in
       (configured = Some key
        \/ (str_truthy configured = false
            /\ dict_get env "DEEPSEEK_API_KEY" = Some key)).
Proof.
  unfold DeepSeek._validate_credentials, DeepSeek.or_else,
    DeepSeek._model_provider.
  rewrite decide_True by done.
  destruct (str_truthy (dict_get (default [] (dict_get config "deepseek"))
                          "api_key_with_base_url")) eqn:Hc.
  - rewrite Hc.
    destruct (dict_get (default [] (dict_get config "deepseek"))
                "api_key_with_base_url") as [[|a k]|]; try done.
    intros [= <-]. exists (String a k). split_and!; [done..|by left].
  - destruct (dict_get env "DEEPSEEK_API_KEY") as [[|a k]|] eqn:He;
      simpl; try (by intros [= ]).
    intros [= <-]. exists (String a k). split_and!; [done..|by right].
Qed.

(** X23: the DeepSeek strategy either returns a client built from a
    non-empty key and the fixed base URL, or raises
    [AstralAuthMethodFailureError("API key is required")]; it raises
    exactly when neither the configuration nor the environment holds a
    non-empty key. *)
Theorem deepseek_strategy_outcome (DEEPSEEK_BASE_URL : string)
    (config : list (string * list (string * string)))
    (env : list (string * string)) :
  let configured :=
    dict_get (default [] (dict_get config "deepseek"))
      "api_key_with_base_url" in
  let from_env := dict_get env "DEEPSEEK_API_KEY" in
  if str_truthy configured || str_truthy from_env
  then exists key,
         key <> EmptyString
         /\ DeepSeek.auth_via_api_key_with_base_url DEEPSEEK_BASE_URL
              config env
            = Returns {| DeepSeek.api_key := key;
                         DeepSeek.base_url := DEEPSEEK_BASE_URL |}
  else DeepSeek.auth_via_api_key_with_base_url DEEPSEEK_BASE_URL config env
       = Raises (DeepSeek.AstralAuthMethodFailureError "API key is required").
Proof.
  unfold DeepSeek.auth_via_api_key_with_base_url,
    DeepSeek._validate_credentials, DeepSeek.or_else,
    DeepSeek._model_provider.
  rewrite decide_True by done. simpl.
  destruct (dict_get (default [] (dict_get config "deepseek"))
              "api_key_with_base_url") as [[|a k]|]; simpl.
  - destruct (dict_get env "DEEPSEEK_API_KEY") as [[|b k']|]; simpl;
      try done. by exists (String b k').
  - by exists (String a k).
  - destruct (dict_get env "DEEPSEEK_API_KEY") as [[|b k']|]; simpl;
      try done. by exists (String b k').
Qed.

(** ** The paths of [get_client] *)

Section GetClientPaths.
Context `{pc : ProviderClasses}.
Implicit Types (w : World) (cls : ClientClass) (c : ProviderClient).
Implicit Types (astral_client : option AstralClientParams).

(** X24: the first call for a provider whose class is not
    [DeepSeekProviderClient] and has no cached handle authenticates; when
    a strategy yields the handle [h], the call returns a new object of
    the provider's class around [h], stores it under the derived key,
    records the strategies called and, with [cache_client] enabled, caches
    [h] for the class. *)
Theorem get_client_constructs_and_registers (provider_name : string)
    astral_client (async_client : bool) (key : string) cls w (h : Handle) :
  _PROVIDER_CLIENT_MAP provider_name = Some cls ->
  cls <> DeepSeekProviderClient ->
  get_client_key provider_name astral_client async_client = Returns key ->
  _client_registry w !! key = None ->
  _client_cache w !! cls = None ->
  auth_result (auth_run_of cls (astral_client ≫= client_config)) = Returns h ->
  let config := astral_client ≫= client_config in
  let new := {| oid := next_oid w; client_class := cls;
                _full_config := resolve_full_config config;
                _config := section_of cls config; client := h |} in
  let r := get_client provider_name astral_client async_client w in
  r.1 = Returns new
  /\ _client_registry r.2 = <[key := new]> (_client_registry w)
  /\ _client_cache r.2
     = (if cache_client_flag (section_of cls config)
        then <[cls := h]> (_client_cache w) else _client_cache w)
  /\ auth_trace r.2
     = auth_trace w
       ++ ((fun n => (cls, n)) <$> auth_invoked (auth_run_of cls config))
  /\ next_oid r.2 = S (next_oid w).
Proof.
  intros Hm Hcls Hk Hreg Hcache Hauth. simpl.
  rewrite (get_client_miss _ _ _ key cls) by done.
  rewrite instantiate_cases, decide_False by done.
  unfold BaseProviderClient__init__.
  fold (section_of cls (astral_client ≫= client_config)).
  fold (auth_run_of cls (astral_client ≫= client_config)).
  simpl. rewrite Hcache, Hauth.
  by destruct (cache_client_flag _).
Qed.

(** X25: what a miss raises.  For a provider whose class is not
    [DeepSeekProviderClient], with no handle cached for the class, an
    authentication error [e] reaches the caller of [get_client] as it is.
    For ["deepseek"] every miss raises the [TypeError] of the constructor
    call before any strategy is called.  In both cases the key stays
    unregistered. *)
Theorem get_client_propagates_auth_error (provider_name : string)
    astral_client (async_client : bool) (key : string) cls w (e : Exn) :
  _PROVIDER_CLIENT_MAP provider_name = Some cls ->
  get_client_key provider_name astral_client async_client = Returns key ->
  _client_registry w !! key = None ->
  let r := get_client provider_name astral_client async_client w in
  (cls = DeepSeekProviderClient ->
   r.1 = Raises (unexpected_keyword "DeepSeekProviderClient" "async_client")
   /\ auth_trace r.2 = auth_trace w
   /\ _client_registry r.2 !! key = None)
  /\ (cls <> DeepSeekProviderClient ->
      _client_cache w !! cls = None ->
      auth_result (auth_run_of cls (astral_client ≫= client_config))
      = Raises e ->
      r.1 = Raises e
      /\ _client_registry r.2 !! key = None).
Proof.
  intros Hm Hk Hreg r. unfold r.
  rewrite (get_client_miss _ _ _ key cls) by done.
  rewrite instantiate_cases. split.
  - intros ->. simpl. by split_and!.
  - intros Hcls Hcache Hauth. rewrite decide_False by done.
    unfold BaseProviderClient__init__.
    fold (section_of cls (astral_client ≫= client_config)).
    fold (auth_run_of cls (astral_client ≫= client_config)).
    simpl. rewrite Hcache, Hauth. by destruct (cache_client_flag _).
Qed.

(** X26: a request for a new client without a non-empty [client_key] is
    rejected with a [ValueError] before the registry is consulted: for
    every provider name and every state, whatever is registered, and the
    state is unchanged. *)
Theorem new_client_without_key_rejected (provider_name : string)
    (ac : AstralClientParams) (async_client : bool) w :
  new_client ac = true ->
  str_truthy (client_key ac) = false ->
  get_client provider_name (Some ac) async_client w
  = (Raises (ValueError
       "When new_client is True, you must provide a unique client_key."),
     w).
Proof.
  intros Hn Hk. unfold get_client, get_client_key. by rewrite Hn, Hk.
Qed.

End GetClientPaths.

(** ** The further properties at concrete inputs *)

Module MoreWitnesses.
Import Examples MoreExamples.

(** X1: the handle of the fallback run is the one of ["api_key"]. *)
Lemma authenticated_handle_from_table_witness :
  @truthy runtime (Some 7) = true
  /\ exists name (strategy : @AuthCallable runtime),
       (name, strategy) ∈ fallback_table
       /\ strategy empty_config (@get_env_vars runtime) = Returns (Some 7).
Proof.
  apply (@authenticated_handle_from_table runtime fallback_table "openai"
           empty_config (Some 7)).
  reflexivity.
Defined.

(** X2: ["oauth"] is pinned and raises; ["api_key"] is not tried. *)
Lemma pinned_method_is_final_witness :
  auth_invoked (@_get_or_authenticate_client runtime fallback_table
                  "openai" (pinned "oauth")) = ["oauth"]
  /\ auth_result (@_get_or_authenticate_client runtime fallback_table
                    "openai" (pinned "oauth")) = Raises E1.
Proof.
  apply (@pinned_method_is_final runtime fallback_table "openai"
           (pinned "oauth") {| auth_method := "oauth" |} (fails E1));
    reflexivity.
Defined.

(** X3: the fallback run calls a prefix of the table. *)
Lemma strategies_called_in_order_witness :
  exists pre post,
    fallback_table = pre ++ post
    /\ auth_invoked (@_get_or_authenticate_client runtime fallback_table
                       "openai" empty_config) = pre.*1
    /\ auth_errors (@_get_or_authenticate_client runtime fallback_table
                      "openai" empty_config) = @raised_by runtime empty_config pre.
Proof.
  apply (@strategies_called_in_order runtime fallback_table "openai"
           empty_config fallback_table).
  reflexivity.
Defined.

Lemma failing_table_fails :
  Forall (@attempt_fails runtime empty_config) failing_table.
Proof. repeat (apply Forall_cons; split; [done|]). apply Forall_nil_2. Qed.

(** X4: three strategies, two raise and one returns [None]. *)
Lemma total_failure_aggregated_witness :
  auth_result (@_get_or_authenticate_client runtime failing_table
                 "openai" empty_config)
  = Raises (MultipleAstralAuthenticationErrors EmptyString "openai"
              "multiple_failed" "NoneType: None"
              [("oauth", E1); ("sso", E2)])
  /\ auth_invoked (@_get_or_authenticate_client runtime failing_table
                     "openai" empty_config) = ["oauth"; "api_key"; "sso"].
Proof.
  apply (@total_failure_aggregated runtime failing_table "openai"
           empty_config).
  - reflexivity.
  - simpl. lia.
  - apply failing_table_fails.
Defined.

(** X5: the error of that run is the consolidated one. *)
Lemma fallback_error_is_consolidated_witness :
  MultipleAstralAuthenticationErrors EmptyString "openai"
    "multiple_failed" "NoneType: None" [("oauth", E1); ("sso", E2)]
  = MultipleAstralAuthenticationErrors EmptyString "openai"
      "multiple_failed" (@format_exc runtime)
      (@raised_by runtime empty_config failing_table)
  /\ Forall (@attempt_fails runtime empty_config) failing_table.
Proof.
  apply (@fallback_error_is_consolidated runtime failing_table "openai"
           empty_config).
  - reflexivity.
  - simpl. lia.
  - reflexivity.
Defined.

(** X6: the first OpenAI initializer leaves the Anthropic entry alone. *)
Lemma class_cache_only_grows_witness :
  _client_cache first_init.2 !! AnthropicProviderClient = None.
Proof.
  destruct (@class_cache_only_grows runtime openai_classes
              OpenAIProviderClient 0 None initial_world) as [_ H].
  unfold first_init.
  rewrite (H AnthropicProviderClient); [reflexivity | discriminate].
Defined.

(** X7: a second OpenAI client with another configuration. *)
Lemma second_init_reuses_handle_witness :
  @BaseProviderClient__init__ runtime openai_classes OpenAIProviderClient
    1 (Some [("openai", pinned "saml")]) first_init.2
  = (Returns (@Build_ProviderClient runtime 1 OpenAIProviderClient
                [("openai", pinned "saml")] (pinned "saml") (Some 7)),
     first_init.2).
Proof.
  apply (@second_init_reuses_handle runtime openai_classes
           OpenAIProviderClient 0 1 None (Some [("openai", pinned "saml")])
           initial_world first_client first_init.2); reflexivity.
Defined.

(** X8: the only strategy raises [E1]. *)
Lemma failed_get_client_stores_nothing_witness :
  _client_registry failing_call.2 = ∅
  /\ _client_cache failing_call.2 = ∅
  /\ _adapter_cache failing_call.2 = ∅.
Proof.
  apply (@failed_get_client_stores_nothing runtime failing_classes
           "openai" None false initial_world E1 failing_call.2).
  reflexivity.
Defined.

(** X9: the first call adds the default entry. *)
Lemma get_client_only_adds_witness :
  exists key,
    @get_client_key runtime "openai" None false = Returns key
    /\ get_client_by_name key first_call.2 = Returns first_client.
Proof.
  destruct (@get_client_only_adds runtime openai_classes "openai" None
              false initial_world) as (_ & _ & H).
  apply H. reflexivity.
Defined.

(** X12: the default OpenAI entry is removed. *)
Lemma unregister_client_removes_one_witness :
  get_client_by_name "openai"
    (unregister_client "openai" None None false first_call.2)
  = Raises (KeyError "openai")
  /\ _client_cache (unregister_client "openai" None None false first_call.2)
     !! OpenAIProviderClient = Some (Some 7).
Proof.
  destruct (@unregister_client_removes_one runtime "openai" None None false
              first_call.2) as (H1 & _ & _ & H4 & _).
  split; [exact H1|]. rewrite H4. reflexivity.
Defined.

(** X13: the registry is cleared after the first call. *)
Lemma clear_cache_keeps_handles_witness :
  get_client_count (clear_cache first_call.2) = 0
  /\ exists c,
       (@get_client runtime openai_classes "openai" None false
          (clear_cache first_call.2)).1 = Returns c
       /\ client c = Some 7
       /\ oid c = 1
       /\ auth_trace (@get_client runtime openai_classes "openai" None false
                        (clear_cache first_call.2)).2
          = [(OpenAIProviderClient, "api_key")].
Proof.
  destruct (@clear_cache_keeps_handles runtime openai_classes "openai" None
              false "openai" OpenAIProviderClient first_call.2 (Some 7))
    as (H1 & _ & H3 & H4); [reflexivity..|].
  split; [exact H1|]. eexists. split; [exact H4|].
  split; [reflexivity|]. split; [reflexivity | exact H3].
Defined.

(** X14: the two default keys of a provider. *)
Lemma sync_async_keys_distinct_witness :
  @_generate_registry_key runtime "openai" None None true
  <> @_generate_registry_key runtime "openai" None None false.
Proof.
  apply (@sync_async_keys_distinct runtime "openai" None None).
Defined.

(** X15: the key ["tenant-a"] was first used for OpenAI and is then
    asked for under a provider name that has no client class. *)
Lemma explicit_key_shared_across_providers_witness :
  exists c,
    tenant_call.1 = Returns c
    /\ client_class c = OpenAIProviderClient
    /\ @get_client runtime openai_classes "unknown" (Some tenant_params)
         false tenant_call.2 = (Returns c, tenant_call.2).
Proof.
  eexists. split; [reflexivity|]. split; [reflexivity|].
  apply (@explicit_key_shared_across_providers runtime openai_classes
           "openai" "unknown" tenant_params tenant_params false
           initial_world); reflexivity.
Defined.

(** X16: the OpenAI adapter of a fresh process. *)
Lemma get_adapter_idempotent_witness :
  @get_adapter runtime openai_classes "openai" first_adapter_call.2
  = (Returns {| adapter_oid := 0; adapter_class := OpenAICompletionAdapter |},
     first_adapter_call.2).
Proof.
  apply (@get_adapter_idempotent runtime openai_classes "openai"
           initial_world).
  reflexivity.
Defined.

(** X18: the adapter constructor raises a [KeyError]. *)
Lemma adapter_constructor_failure_witness :
  (@get_adapter runtime (failing_adapter_classes (KeyError "schema"))
     "openai" initial_world).1
  = Raises (ProviderNotSupportedError "openai")
  /\ _adapter_cache
       (@get_adapter runtime (failing_adapter_classes (KeyError "schema"))
          "openai" initial_world).2 = ∅.
Proof.
  destruct (@adapter_constructor_failure runtime
              (failing_adapter_classes (KeyError "schema")) "openai"
              OpenAICompletionAdapter (KeyError "schema") initial_world)
    as (H1 & H2 & _); [reflexivity..|].
  split; [exact H1 | exact H2].
Defined.

(** X19: the adapter cache is cleared after the first call. *)
Lemma removed_adapter_rebuilt_witness :
  (@get_adapter runtime openai_classes "openai"
     (AdapterRegistry.clear_cache first_adapter_call.2)).1
  = Returns {| adapter_oid := 1; adapter_class := OpenAICompletionAdapter |}.
Proof.
  destruct (@removed_adapter_rebuilt runtime openai_classes "openai"
              OpenAICompletionAdapter first_adapter_call.2
              (AdapterRegistry.clear_cache first_adapter_call.2))
    as (H1 & _); [reflexivity | reflexivity | by right |].
  exact H1.
Defined.

(** X22: the key is configured and also present in the environment. *)
Lemma deepseek_credentials_source_witness :
  exists key,
    [("api_key", "sk-config")] = [("api_key", key)]
    /\ key <> EmptyString
    /\ let configured :=
         dict_get (default [] (dict_get deepseek_config "deepseek"))
           "api_key_with_base_url" in
       (configured = Some key
        \/ (str_truthy configured = false
            /\ dict_get deepseek_env "DEEPSEEK_API_KEY" = Some key)).
Proof.
  apply (deepseek_credentials_source deepseek_config deepseek_env).
  reflexivity.
Defined.

(** X24: the first call of a fresh process. *)
Lemma get_client_constructs_and_registers_witness :
  first_call.1 = Returns first_client
  /\ _client_registry first_call.2 = <[ "openai" := first_client ]> ∅
  /\ _client_cache first_call.2 = <[ OpenAIProviderClient := Some 7 ]> ∅.
Proof.
  destruct (@get_client_constructs_and_registers runtime openai_classes
              "openai" None false "openai" OpenAIProviderClient
              initial_world (Some 7)) as (H1 & H2 & H3 & _);
    [reflexivity | discriminate | reflexivity..|].
  split; [exact H1|]. split; [exact H2 | exact H3].
Defined.

(** X25: the only strategy of the OpenAI client raises [E1]; the
    DeepSeek client cannot be constructed through the registry. *)
Lemma get_client_propagates_auth_error_witness :
  failing_call.1 = Raises E1
  /\ (@get_client runtime openai_classes "deepseek" None false
        initial_world).1
     = Raises (OtherException "TypeError"
         "DeepSeekProviderClient.__init__() got an unexpected keyword argument 'async_client'").
Proof.
  split.
  - apply (proj2 (@get_client_propagates_auth_error runtime failing_classes
                    "openai" None false "openai" OpenAIProviderClient
                    initial_world E1 eq_refl eq_refl eq_refl));
      [discriminate | reflexivity..].
  - apply (proj1 (@get_client_propagates_auth_error runtime openai_classes
                    "deepseek" None false "deepseek" DeepSeekProviderClient
                    initial_world E1 eq_refl eq_refl eq_refl)).
    reflexivity.
Defined.

(** X26: a new client is asked for with an empty key, for a provider
    whose default client is registered. *)
Lemma new_client_without_key_rejected_witness :
  @get_client runtime openai_classes "openai" (Some keyless_params) false
    first_call.2
  = (Raises (ValueError
       "When new_client is True, you must provide a unique client_key."),
     first_call.2).
Proof.
  apply (@new_client_without_key_rejected runtime openai_classes "openai"
           keyless_params false first_call.2); reflexivity.
Defined.

End MoreWitnesses.
